(** * The diff processing pipeline of the Bitbucket Server MCP server

    A shallow embedding of the diff pipeline of [src/index.ts]
    ([truncateDiff], [truncateFileSection], [matchesGlobPattern],
    [fileMatchesPatterns], [filterDiff]) and the properties its
    specification states about it.

    Modelling conventions.
    - A JavaScript string is a [string]: a sequence of 8-bit characters.
      Code units above 255 (among them the line terminators U+2028 and
      U+2029) are outside the model.
    - A JavaScript number that the pipeline uses as a count or a limit is
      an integer of [Z]; an optional field is an [option].  [NaN],
      infinities and fractional limits are outside the model.  For an
      integer [m] below 2^50 the double product [m * 0.6] (resp.
      [m * 0.4]) has the same floor as the rational [6m/10] (resp.
      [4m/10]), which is what [Math.floor (m * 0.6)] is taken to be.
      A number is printed in decimal, which is what JavaScript does for
      an integer of magnitude below 10^21; beyond it JavaScript prints an
      exponent form, and such numbers are outside the model.
    - An array is a [list]; [push] appends at the end. *)

From Stdlib Require Import List Bool Arith ZArith Lia.
From Stdlib Require Import Ascii String DecimalString.
Import ListNotations.

Open Scope string_scope.
Open Scope list_scope.
Open Scope Z_scope.

(* ================================================================= *)
(** ** JavaScript primitives used by the pipeline *)

Module JS.

(** The line feed, the separator of [split('\n')] and [join('\n')]. *)
Definition LF : ascii := "010"%char.
Definition CR : ascii := "013"%char.

(** [s.startsWith(p)]. *)
Fixpoint startsWith (p s : string) {struct p} : bool :=
  match p with
  | EmptyString => true
  | String a p' =>
      match s with
      | EmptyString => false
      | String b s' => Ascii.eqb a b && startsWith p' s'
      end
  end.

(** [s.split('\n')]: never empty, [''.split('\n')] is [['']]. *)
Fixpoint split (s : string) : list string :=
  match s with
  | EmptyString => [EmptyString]
  | String c s' =>
      if Ascii.eqb c LF then EmptyString :: split s'
      else match split s' with
           | h :: t => String c h :: t
           | [] => [String c EmptyString]
           end
  end.

(** [a.join('\n')]. *)
Fixpoint join (a : list string) : string :=
  match a with
  | [] => EmptyString
  | [x] => x
  | x :: rest => (x ++ String LF (join rest))%string
  end.

(** [a.length] as a number. *)
Definition len {A} (a : list A) : Z := Z.of_nat (List.length a).

(** [a.slice(start)] and [a.slice(start, stop)]: a negative index counts
    from the end, and both are clamped to the array.  [-0] is [0]. *)
Definition relIndex (n : Z) (i : Z) : Z :=
  if i <? 0 then Z.max (n + i) 0 else Z.min i n.

Definition slice {A} (a : list A) (start : Z) (stop : option Z) : list A :=
  let n := len a in
  let k := relIndex n start in
  let final := match stop with None => n | Some e => relIndex n e end in
  firstn (Z.to_nat (final - k)) (skipn (Z.to_nat k) a).

(** A number inside a template literal: its decimal form.  This is the
    text JavaScript prints for an integer [x] with [-10^21 < x < 10^21]
    (from 10^21 on JavaScript prints an exponent form, as in [1e+21]);
    statements that print a limit of the caller keep it in that range. *)
Definition numToString (x : Z) : string :=
  NilZero.string_of_int (Z.to_int x).

(** [Math.floor (m * 0.6)] and [Math.floor (m * 0.4)] for an integer [m]. *)
Definition floorMul06 (m : Z) : Z := (m * 6) / 10.
Definition floorMul04 (m : Z) : Z := (m * 4) / 10.

(** Truthiness of an optional number: [undefined] and [0] are falsy. *)
Definition truthyNum (x : option Z) : bool :=
  match x with
  | None => false
  | Some v => negb (v =? 0)
  end.

(** [!a?.length] for an optional array. *)
Definition noLength {A} (a : option (list A)) : bool :=
  match a with
  | None => true
  | Some l => match l with [] => true | _ => false end
  end.

End JS.

(* ================================================================= *)
(** ** The per-file truncator: [truncateFileSection] *)

Definition isHunkHeader (line : string) : bool := JS.startsWith "@@" line.

Definition truncationMarker (truncatedCount total showAtStart showAtEnd : Z)
    (fileName : string) : list string :=
  [ "";
    ("[*** FILE TRUNCATED: " ++ JS.numToString truncatedCount
      ++ " lines hidden from " ++ fileName ++ " ***]")%string;
    ("[*** File had " ++ JS.numToString total ++ " total lines, showing first "
      ++ JS.numToString showAtStart ++ " and last "
      ++ JS.numToString showAtEnd ++ " ***]")%string;
    "[*** Use maxLinesPerFile=0 to see complete diff ***]";
    "" ].

Definition truncateFileSection (fileLines : list string) (fileName : string)
    (maxLines : Z) : list string :=
  if JS.len fileLines <=? maxLines then fileLines
  else
    let contentLines := filter (fun line => negb (isHunkHeader line)) fileLines in
    let hunkHeaders := filter isHunkHeader fileLines in
    if JS.len contentLines <=? maxLines then fileLines
    else
      let showAtStart := JS.floorMul06 maxLines in
      let showAtEnd := JS.floorMul04 maxLines in
      let truncatedCount := JS.len contentLines - showAtStart - showAtEnd in
      hunkHeaders
        ++ JS.slice contentLines 0 (Some showAtStart)
        ++ truncationMarker truncatedCount (JS.len contentLines)
             showAtStart showAtEnd fileName
        ++ JS.slice contentLines (- showAtEnd) None.

(* ================================================================= *)
(** ** The header pattern [/diff --git a\/(.+) b\/(.+)/] *)

Module Header.

(** What [.] accepts: any character but a line terminator. *)
Definition isLineTerminator (c : ascii) : bool :=
  Ascii.eqb c JS.LF || Ascii.eqb c JS.CR.

(** [s.slice(n)] on a string. *)
Fixpoint drop (n : nat) (s : string) : string :=
  match n, s with
  | O, _ => s
  | S _, EmptyString => EmptyString
  | S n', String _ s' => drop n' s'
  end.

(** The longest run of [.] at the front of [s]: what a greedy group of
    [.] takes when nothing follows it in the pattern. *)
Fixpoint dotRun (s : string) : string :=
  match s with
  | EmptyString => EmptyString
  | String c s' =>
      if isLineTerminator c then EmptyString else String c (dotRun s')
  end.

(** [(.+) b\/(.+)] at the front of [r].  The first group is greedy: the
    longest run of [.] after which [" b/"] and one more [.] follow wins,
    and the second group then takes all the [.] it can. *)
Fixpoint groups (r : string) : option (string * string) :=
  match r with
  | EmptyString => None
  | String c r' =>
      if isLineTerminator c then None
      else
        match groups r' with
        | Some (g1, g2) => Some (String c g1, g2)
        | None =>
            if JS.startsWith " b/" r' then
              match dotRun (drop 3 r') with
              | EmptyString => None
              | g2 => Some (String c EmptyString, g2)
              end
            else None
        end
  end.

(** The whole pattern at the front of [s]. *)
Definition matchHere (s : string) : option (string * string) :=
  if JS.startsWith "diff --git a/" s then groups (drop 13 s) else None.

(** [line.match(re)]: the leftmost position at which the pattern
    matches; the result carries the two groups. *)
Fixpoint exec (s : string) : option (string * string) :=
  match matchHere s with
  | Some g => Some g
  | None =>
      match s with
      | EmptyString => None
      | String _ s' => exec s'
      end
  end.

End Header.

(* ================================================================= *)
(** ** The whole-document truncator: [truncateDiff] *)

Definition isFileHeader (line : string) : bool :=
  JS.startsWith "diff --git " line.

Definition isFileMetadata (line : string) : bool :=
  JS.startsWith "index " line || JS.startsWith "+++" line
  || JS.startsWith "---" line.

Record TruncState : Type := mkTruncState {
  t_result : list string;
  t_currentFileLines : list string;
  t_currentFileName : string;
  t_inFileContent : bool
}.

Definition truncInit : TruncState := mkTruncState [] [] "" false.

(** One iteration of the [for (const line of lines)] loop. *)
Definition truncStep (maxLinesPerFile : Z) (st : TruncState) (line : string)
    : TruncState :=
  if isFileHeader line then
    let flushed : list string :=
      match t_currentFileLines st with
      | [] => t_result st
      | cur => t_result st
                 ++ truncateFileSection cur (t_currentFileName st) maxLinesPerFile
      end in
    let name : string :=
      match Header.exec line with
      | Some (_, g2) => g2
      | None => "unknown"
      end in
    mkTruncState (flushed ++ [line]) [] name false
  else if isFileMetadata line then
    mkTruncState (t_result st ++ [line]) (t_currentFileLines st)
      (t_currentFileName st) (t_inFileContent st)
  else if isHunkHeader line then
    mkTruncState (t_result st) (t_currentFileLines st ++ [line])
      (t_currentFileName st) true
  else if t_inFileContent st then
    mkTruncState (t_result st) (t_currentFileLines st ++ [line])
      (t_currentFileName st) (t_inFileContent st)
  else
    mkTruncState (t_result st ++ [line]) (t_currentFileLines st)
      (t_currentFileName st) (t_inFileContent st).

(** The lines pushed once the loop is over: the last file is processed. *)
Definition truncFinish (maxLinesPerFile : Z) (st : TruncState) : list string :=
  match t_currentFileLines st with
  | [] => t_result st
  | cur => t_result st
             ++ truncateFileSection cur (t_currentFileName st) maxLinesPerFile
  end.

Definition truncateLines (maxLinesPerFile : Z) (lines : list string)
    : list string :=
  truncFinish maxLinesPerFile (fold_left (truncStep maxLinesPerFile) lines truncInit).

(** [truncateDiff]: the guard [!maxLinesPerFile || maxLinesPerFile <= 0]
    returns the input as it is. *)
Definition truncateDiff (diffContent : string) (maxLinesPerFile : Z) : string :=
  if (maxLinesPerFile =? 0) || (maxLinesPerFile <=? 0) then diffContent
  else JS.join (truncateLines maxLinesPerFile (JS.split diffContent)).

(* ================================================================= *)
(** ** Regular expressions: the fragment [matchesGlobPattern] builds *)

Module Regex.

(** [s.replace(/needle/g, repl)] for a pattern that is a literal string
    and a replacement without [$]: a left-to-right scan that replaces
    each occurrence and resumes after it.  [skip] counts the characters
    of the occurrence just replaced that are still to be passed. *)
Fixpoint replaceAllFrom (needle repl : string) (skip : nat) (s : string)
    : string :=
  match s with
  | EmptyString => EmptyString
  | String c s' =>
      match skip with
      | S k => replaceAllFrom needle repl k s'
      | O =>
          if JS.startsWith needle s then
            (repl ++ replaceAllFrom needle repl (Nat.pred (String.length needle)) s')%string
          else String c (replaceAllFrom needle repl O s')
      end
  end.

Definition replaceAll (needle repl s : string) : string :=
  replaceAllFrom needle repl O s.

(** The class of [/[.+^${}()|[\]\\]/]. *)
Definition isEscaped (c : ascii) : bool :=
  existsb (Ascii.eqb c)
    [ "."; "+"; "^"; "$"; "{"; "}"; "("; ")"; "|"; "["; "]"; "\" ]%char.

(** [s.replace(/[.+^${}()|[\]\\]/g, '\\$&')]: a backslash before each
    character of the class. *)
Fixpoint escapeSpecials (s : string) : string :=
  match s with
  | EmptyString => EmptyString
  | String c s' =>
      if isEscaped c then String "\" (String c (escapeSpecials s'))
      else String c (escapeSpecials s')
  end.

(** The characters with a meaning of their own in a pattern. *)
Definition isSyntaxChar (c : ascii) : bool :=
  existsb (Ascii.eqb c)
    [ "^"; "$"; "\"; "."; "*"; "+"; "?"; "("; ")"; "["; "]"; "{"; "}"; "|" ]%char.

(** What one pattern character stands for. *)
Inductive charset : Type :=
| CLit (c : ascii)      (* the character itself, escaped or not *)
| CDot                  (* [.]: anything but a line terminator *)
| CNotSlash.            (* [[^/]] *)

Inductive item : Type :=
| AssertStart           (* [^] *)
| AssertEnd             (* [$] *)
| One (cs : charset)
| Star (cs : charset).  (* a greedy [*] *)

Definition accepts (cs : charset) (c : ascii) : bool :=
  match cs with
  | CLit d => Ascii.eqb d c
  | CDot => negb (Header.isLineTerminator c)
  | CNotSlash => negb (Ascii.eqb c "/")
  end.

(** [new RegExp(src)] on the fragment: [^], [$], an escaped syntax
    character, [.], the class [[^/]], an ordinary character, each of the
    last four with an optional [*].  [None] is a source outside the
    fragment. *)
Fixpoint parse (src : string) : option (list item) :=
  match src with
  | EmptyString => Some []
  | String c r =>
      if Ascii.eqb c "^" then option_map (cons AssertStart) (parse r)
      else if Ascii.eqb c "$" then option_map (cons AssertEnd) (parse r)
      else if Ascii.eqb c "." then
        match r with
        | String q r' =>
            if Ascii.eqb q "*" then option_map (cons (Star CDot)) (parse r')
            else option_map (cons (One CDot)) (parse r)
        | EmptyString => Some [One CDot]
        end
      else if Ascii.eqb c "\" then
        match r with
        | String d r1 =>
            if isSyntaxChar d then
              match r1 with
              | String q r' =>
                  if Ascii.eqb q "*" then option_map (cons (Star (CLit d))) (parse r')
                  else option_map (cons (One (CLit d))) (parse r1)
              | EmptyString => Some [One (CLit d)]
              end
            else None
        | EmptyString => None
        end
      else if Ascii.eqb c "[" then
        match r with
        | String "^" (String "/" (String "]" r1)) =>
            match r1 with
            | String q r' =>
                if Ascii.eqb q "*" then option_map (cons (Star CNotSlash)) (parse r')
                else option_map (cons (One CNotSlash)) (parse r1)
            | EmptyString => Some [One CNotSlash]
            end
        | _ => None
        end
      else if isSyntaxChar c then None
      else
        match r with
        | String q r' =>
            if Ascii.eqb q "*" then option_map (cons (Star (CLit c))) (parse r')
            else option_map (cons (One (CLit c))) (parse r)
        | EmptyString => Some [One (CLit c)]
        end
  end.

(** Backtracking match of the items at the front of [s]; [atStart] tells
    whether the front of [s] is the start of the input. *)
Fixpoint matchItems (its : list item) : bool -> string -> bool :=
  match its with
  | [] => fun _ _ => true
  | AssertStart :: r => fun atStart s => atStart && matchItems r atStart s
  | AssertEnd :: r =>
      fun atStart s =>
        match s with
        | EmptyString => matchItems r atStart s
        | String _ _ => false
        end
  | One cs :: r =>
      fun _ s =>
        match s with
        | EmptyString => false
        | String c s' => accepts cs c && matchItems r false s'
        end
  | Star cs :: r =>
      fix star (atStart : bool) (s : string) {struct s} : bool :=
        match s with
        | EmptyString => matchItems r atStart s
        | String c s' =>
            (accepts cs c && star false s') || matchItems r atStart s
        end
  end.

(** [re.test(s)]: a match starting at some position of [s]. *)
Fixpoint searchFrom (its : list item) (atStart : bool) (s : string) : bool :=
  matchItems its atStart s
  || match s with
     | EmptyString => false
     | String _ s' => searchFrom its false s'
     end.

Definition test (its : list item) (s : string) : bool := searchFrom its true s.

End Regex.

(* ================================================================= *)
(** ** The path matcher: [matchesGlobPattern] and [fileMatchesPatterns] *)

(** The source of the regular expression a glob pattern is turned into. *)
Definition globRegexSource (pattern : string) : string :=
  Regex.replaceAll "{{GLOBSTAR}}" ".*"
    (Regex.replaceAll "?" "[^/]"
       (Regex.replaceAll "*" "[^/]*"
          (Regex.replaceAll "**" "{{GLOBSTAR}}"
             (Regex.escapeSpecials pattern)))).

(** [matchesGlobPattern].  The source always lies in the fragment that
    [Regex.parse] reads (lemma [globRegexSource_parses] below), so the
    [None] branch is never taken. *)
Definition matchesGlobPattern (filePath pattern : string) : bool :=
  match Regex.parse ("^" ++ globRegexSource pattern ++ "$")%string with
  | Some re => Regex.test re filePath
  | None => false
  end.

(** [fileMatchesPatterns]: each [for] loop returns at the first pattern
    that matches. *)
Definition fileMatchesPatterns (filePath : string)
    (includePatterns excludePatterns : option (list string)) : bool :=
  if match excludePatterns with
     | Some ((_ :: _) as pats) => existsb (matchesGlobPattern filePath) pats
     | _ => false
     end
  then false
  else
    match includePatterns with
    | Some ((_ :: _) as pats) => existsb (matchesGlobPattern filePath) pats
    | _ => true
    end.

(* ================================================================= *)
(** ** The segmenter and filter: [filterDiff] *)

Record DiffFilterOptions : Type := mkOptions {
  includePaths : option (list string);
  excludePaths : option (list string);
  maxFiles : option Z;
  maxTotalLines : option Z
}.

Record Stats : Type := mkStats {
  includedFiles : Z;
  excludedFiles : Z;
  totalLines : Z
}.

(** The variables the closure [flushCurrentFile] and the loop share. *)
Record FilterState : Type := mkFilterState {
  f_result : list string;
  f_currentFileLines : list string;
  f_currentFileName : string;
  f_includedFiles : Z;
  f_excludedFiles : Z;
  f_totalLines : Z;
  f_reachedMaxFiles : bool;
  f_reachedMaxLines : bool
}.

Definition filterInit : FilterState :=
  mkFilterState [] [] "" 0 0 0 false false.

(** [maxFiles && includedFiles >= maxFiles]. *)
Definition maxFilesHit (opts : DiffFilterOptions) (included : Z) : bool :=
  match maxFiles opts with
  | Some m => negb (m =? 0) && (included >=? m)
  | None => false
  end.

(** [maxTotalLines && totalLines + currentFileLines.length > maxTotalLines]. *)
Definition maxLinesHit (opts : DiffFilterOptions) (total n : Z) : bool :=
  match maxTotalLines opts with
  | Some m => negb (m =? 0) && (total + n >? m)
  | None => false
  end.

Definition flushCurrentFile (opts : DiffFilterOptions) (st : FilterState)
    : FilterState :=
  match f_currentFileLines st with
  | [] => st
  | cur =>
      let shouldInclude :=
        fileMatchesPatterns (f_currentFileName st)
          (includePaths opts) (excludePaths opts) in
      if shouldInclude && negb (f_reachedMaxFiles st)
         && negb (f_reachedMaxLines st) then
        if maxFilesHit opts (f_includedFiles st) then
          mkFilterState (f_result st) [] (f_currentFileName st)
            (f_includedFiles st) (f_excludedFiles st + 1) (f_totalLines st)
            true (f_reachedMaxLines st)
        else if maxLinesHit opts (f_totalLines st) (JS.len cur) then
          mkFilterState (f_result st) [] (f_currentFileName st)
            (f_includedFiles st) (f_excludedFiles st + 1) (f_totalLines st)
            (f_reachedMaxFiles st) true
        else
          mkFilterState (f_result st ++ cur) [] (f_currentFileName st)
            (f_includedFiles st + 1) (f_excludedFiles st)
            (f_totalLines st + JS.len cur)
            (f_reachedMaxFiles st) (f_reachedMaxLines st)
      else
        mkFilterState (f_result st) [] (f_currentFileName st)
          (f_includedFiles st) (f_excludedFiles st + 1) (f_totalLines st)
          (f_reachedMaxFiles st) (f_reachedMaxLines st)
  end.

(** [match ? match[2] : ''] in [filterDiff]. *)
Definition filterFileName (line : string) : string :=
  match Header.exec line with
  | Some (_, g2) => g2
  | None => ""
  end.

(** One iteration of the [for (const line of lines)] loop.  The second
    branch is [else if (currentFileName)]: the empty name is falsy. *)
Definition filterStep (opts : DiffFilterOptions) (st : FilterState)
    (line : string) : FilterState :=
  if isFileHeader line then
    let st' := flushCurrentFile opts st in
    mkFilterState (f_result st') (f_currentFileLines st' ++ [line])
      (filterFileName line)
      (f_includedFiles st') (f_excludedFiles st') (f_totalLines st')
      (f_reachedMaxFiles st') (f_reachedMaxLines st')
  else if negb (String.eqb (f_currentFileName st) "") then
    mkFilterState (f_result st) (f_currentFileLines st ++ [line])
      (f_currentFileName st)
      (f_includedFiles st) (f_excludedFiles st) (f_totalLines st)
      (f_reachedMaxFiles st) (f_reachedMaxLines st)
  else
    mkFilterState (f_result st ++ [line]) (f_currentFileLines st)
      (f_currentFileName st)
      (f_includedFiles st) (f_excludedFiles st) (f_totalLines st)
      (f_reachedMaxFiles st) (f_reachedMaxLines st).

Definition optNumToString (x : option Z) : string :=
  match x with
  | Some v => JS.numToString v
  | None => "undefined"
  end.

(** The summary block pushed when a file was excluded. *)
Definition summaryBlock (opts : DiffFilterOptions)
    (included excluded total : Z) (reachedMaxFiles reachedMaxLines : bool)
    : list string :=
  if excluded >? 0 then
    [ "";
      ("[*** DIFF FILTERED: " ++ JS.numToString excluded
         ++ " files excluded ***]")%string ]
    ++ (if reachedMaxFiles then
          [ ("[*** Reached maxFiles limit of " ++ optNumToString (maxFiles opts)
               ++ " ***]")%string ]
        else [])
    ++ (if reachedMaxLines then
          [ ("[*** Reached maxTotalLines limit of "
               ++ optNumToString (maxTotalLines opts) ++ " ***]")%string ]
        else [])
    ++ [ ("[*** Showing " ++ JS.numToString included ++ " files, "
            ++ JS.numToString total ++ " lines ***]")%string ]
  else [].

Definition filterSummary (opts : DiffFilterOptions) (st : FilterState)
    : list string :=
  summaryBlock opts (f_includedFiles st) (f_excludedFiles st) (f_totalLines st)
    (f_reachedMaxFiles st) (f_reachedMaxLines st).

(** The state after the loop and the last [flushCurrentFile]. *)
Definition filterRun (opts : DiffFilterOptions) (lines : list string)
    : FilterState :=
  flushCurrentFile opts (fold_left (filterStep opts) lines filterInit).

(** The test of the fast path:
    [!includePaths?.length && !excludePaths?.length && !maxFiles && !maxTotalLines]. *)
Definition noFiltering (opts : DiffFilterOptions) : bool :=
  JS.noLength (includePaths opts) && JS.noLength (excludePaths opts)
  && negb (JS.truthyNum (maxFiles opts))
  && negb (JS.truthyNum (maxTotalLines opts)).

Definition filterDiff (diffContent : string) (opts : DiffFilterOptions)
    : string * Stats :=
  if noFiltering opts then
    (diffContent, mkStats 0 0 (JS.len (JS.split diffContent)))
  else
    let st := filterRun opts (JS.split diffContent) in
    (JS.join (f_result st ++ filterSummary opts st),
     mkStats (f_includedFiles st) (f_excludedFiles st) (f_totalLines st)).

(* ================================================================= *)
(** ** The handlers around the pipeline *)

(** The errors a handler throws: the three [McpError] codes in use, and
    an error of the HTTP client, which is passed on as it is. *)
Inductive McpError : Type :=
| InvalidParams (message : string)
| MethodNotFound (message : string)
| InternalError (message : string)
| HttpError (status : Z).

Inductive Result (A : Type) : Type :=
| Returns (value : A)
| Throws (error : McpError).

Arguments Returns {A} value.
Arguments Throws {A} error.

(** Truthiness of an optional string: [undefined] and [''] are falsy. *)
Definition truthyStr (x : option string) : bool :=
  match x with
  | Some (String _ _) => true
  | _ => false
  end.

(** [x || fallback] on an optional string. *)
Definition orElse (x : option string) (fallback : string) : string :=
  match x with
  | Some (String c s) => String c s
  | _ => fallback
  end.

(** [x || 0] on an optional number. *)
Definition orZero (x : option Z) : Z :=
  match x with
  | Some v => if v =? 0 then 0 else v
  | None => 0
  end.

Record PullRequestParams : Type := mkParams {
  project : option string;
  repository : option string;
  prId : option Z
}.

(** The guard [!project || !repository || !prId]. *)
Definition paramsMissing (params : PullRequestParams) : bool :=
  negb (truthyStr (project params)) || negb (truthyStr (repository params))
  || negb (JS.truthyNum (prId params)).

(** *** The tools and the read-only gate of [setupToolHandlers] *)

Definition readOnlyTools : list string :=
  [ "list_projects"; "list_repositories"; "get_pull_request"; "get_diff";
    "get_diff_stats"; "get_diff_for_files"; "get_reviews"; "get_activities";
    "get_comments"; "search"; "get_file_content"; "browse_repository" ].

(** The names of the tools array, in its order. *)
Definition toolNames : list string :=
  [ "list_projects"; "list_repositories"; "create_pull_request";
    "get_pull_request"; "merge_pull_request"; "decline_pull_request";
    "add_comment"; "add_comment_inline"; "get_diff"; "get_diff_stats";
    "get_diff_for_files"; "get_reviews"; "get_activities"; "get_comments";
    "search"; "get_file_content"; "browse_repository" ].

(** [a.includes(name)]. *)
Definition includesName (a : list string) (name : string) : bool :=
  existsb (String.eqb name) a.

(** The tools offered: [tools.filter(tool => !readOnly || readOnlyTools.includes(tool.name))]. *)
Definition listTools (readOnly : bool) : list string :=
  filter (fun name => negb readOnly || includesName readOnlyTools name) toolNames.

(** The methods the [switch] of the call handler leads to. *)
Inductive Handler : Type :=
| ListProjects | ListRepositories | CreatePullRequest | GetPullRequest
| MergePullRequest | DeclinePullRequest | AddComment | AddCommentInline
| GetDiff | GetDiffStats | GetDiffForFiles | GetReviews | GetActivities
| GetComments | Search | GetFileContent | BrowseRepository.

(** The methods whose request is [this.api.post]. *)
Definition postsToApi (h : Handler) : bool :=
  match h with
  | CreatePullRequest | MergePullRequest | DeclinePullRequest
  | AddComment | AddCommentInline => true
  | _ => false
  end.

(** The call handler up to the method it calls: the read-only gate, then
    the [switch] on the name. *)
Definition callTool (readOnly : bool) (name : string) : Result Handler :=
  if readOnly && negb (includesName readOnlyTools name) then
    Throws (MethodNotFound
              ("Tool " ++ name ++ " is not available in read-only mode"))
  else if String.eqb name "list_projects" then Returns ListProjects
  else if String.eqb name "list_repositories" then Returns ListRepositories
  else if String.eqb name "create_pull_request" then Returns CreatePullRequest
  else if String.eqb name "get_pull_request" then Returns GetPullRequest
  else if String.eqb name "merge_pull_request" then Returns MergePullRequest
  else if String.eqb name "decline_pull_request" then Returns DeclinePullRequest
  else if String.eqb name "add_comment" then Returns AddComment
  else if String.eqb name "add_comment_inline" then Returns AddCommentInline
  else if String.eqb name "get_diff" then Returns GetDiff
  else if String.eqb name "get_diff_stats" then Returns GetDiffStats
  else if String.eqb name "get_diff_for_files" then Returns GetDiffForFiles
  else if String.eqb name "get_reviews" then Returns GetReviews
  else if String.eqb name "get_activities" then Returns GetActivities
  else if String.eqb name "get_comments" then Returns GetComments
  else if String.eqb name "search" then Returns Search
  else if String.eqb name "get_file_content" then Returns GetFileContent
  else if String.eqb name "browse_repository" then Returns BrowseRepository
  else Throws (MethodNotFound ("Unknown tool: " ++ name)).

(** *** [getDiff] *)

(** What [getDiff] does with the text it has fetched: the filter when
    filter options are given, then the truncator under the limit of the
    call or, when the call gives none, of the configuration. *)
Definition getDiffText (configMaxLines : option Z) (data : string)
    (maxLinesPerFile : option Z) (filterOptions : option DiffFilterOptions)
    : string :=
  let filtered :=
    match filterOptions with
    | Some opts => fst (filterDiff data opts)
    | None => data
    end in
  let effectiveMaxLines :=
    match maxLinesPerFile with
    | Some m => Some m
    | None => configMaxLines
    end in
  match effectiveMaxLines with
  | Some m => if m =? 0 then filtered else truncateDiff filtered m
  | None => filtered
  end.

(** [getDiff]: [response] is what the request for the diff of the pull
    request gives. *)
Definition getDiff (configMaxLines : option Z) (response : Result string)
    (params : PullRequestParams) (maxLinesPerFile : option Z)
    (filterOptions : option DiffFilterOptions) : Result string :=
  if paramsMissing params then
    Throws (InvalidParams "Project, repository, and prId are required")
  else
    match response with
    | Throws e => Throws e
    | Returns data =>
        Returns (getDiffText configMaxLines data maxLinesPerFile filterOptions)
    end.

(** *** [getDiffStats] *)

(** An entry of the changes of a pull request; [ce_path] is
    [change.path?.toString], [ce_linesAdded] is
    [change.properties?.linesAdded], and so on. *)
Record ChangeEntry : Type := mkChange {
  ce_path : option string;
  ce_srcPath : option string;
  ce_type : option string;
  ce_nodeType : option string;
  ce_linesAdded : option Z;
  ce_linesRemoved : option Z
}.

Record FileStat : Type := mkFileStat {
  fs_path : string;
  fs_additions : Z;
  fs_deletions : Z;
  fs_type : string
}.

Record DiffStatsResult : Type := mkDiffStats {
  ds_totalFiles : Z;
  ds_totalAdditions : Z;
  ds_totalDeletions : Z;
  ds_files : list FileStat;
  ds_showing : Z
}.

(** The callback of [changes.map]: it adds to the two totals and returns
    the entry of the file. *)
Definition statOfChange (acc : Z * Z * list FileStat) (change : ChangeEntry)
    : Z * Z * list FileStat :=
  let '(totalAdditions, totalDeletions, files) := acc in
  let additions := orZero (ce_linesAdded change) in
  let deletions := orZero (ce_linesRemoved change) in
  (totalAdditions + additions, totalDeletions + deletions,
   files ++ [ mkFileStat
                (match ce_path change with
                 | Some (String c s) => String c s
                 | _ => orElse (ce_srcPath change) "unknown"
                 end)
                additions deletions
                (match ce_type change with
                 | Some (String c s) => String c s
                 | _ => orElse (ce_nodeType change) "MODIFY"
                 end) ]).

(** The result built from [response.data]: [values] and [size] are its
    fields of these names. *)
Definition diffStats (values : option (list ChangeEntry)) (size : option Z)
    : DiffStatsResult :=
  let changes := match values with Some l => l | None => [] end in
  let '(totalAdditions, totalDeletions, files) :=
    fold_left statOfChange changes (0, 0, []) in
  mkDiffStats
    (match size with
     | Some v => if v =? 0 then JS.len files else v
     | None => JS.len files
     end)
    totalAdditions totalDeletions files (JS.len files).

(** *** [getDiffForFiles] *)

(** What the request for the diff of one file gives: the text, a 404, or
    another error. *)
Inductive FileFetch : Type :=
| Fetched (data : string)
| NotFound
| Failed (error : McpError).

(** The loop over the file paths: [diffs] and [errors] are the two
    arrays; an error other than a 404 leaves the loop and the method. *)
Fixpoint fetchFiles (fetch : string -> FileFetch) (filePaths : list string)
    (diffs errors : list string) : Result (list string * list string) :=
  match filePaths with
  | [] => Returns (diffs, errors)
  | filePath :: rest =>
      match fetch filePath with
      | Fetched data =>
          fetchFiles fetch rest
            (diffs ++ [ ("=== " ++ filePath ++ " ===" ++ String JS.LF data)%string ])
            errors
      | NotFound =>
          fetchFiles fetch rest diffs
            (errors ++ [ ("File not found in diff: " ++ filePath)%string ])
      | Failed e => Throws e
      end
  end.

Definition twoLineFeeds : string := String JS.LF (String JS.LF EmptyString).

Definition getDiffForFiles (fetch : string -> FileFetch)
    (params : PullRequestParams) (filePaths : option (list string))
    : Result string :=
  if paramsMissing params then
    Throws (InvalidParams "Project, repository, and prId are required")
  else
    match filePaths with
    | None | Some [] =>
        Throws (InvalidParams "filePaths array is required and must not be empty")
    | Some paths =>
        match fetchFiles fetch paths [] [] with
        | Throws e => Throws e
        | Returns (diffs, errors) =>
            let result := String.concat twoLineFeeds diffs in
            Returns
              (match errors with
               | [] => result
               | _ => (result ++ twoLineFeeds ++ "[*** WARNINGS ***]"
                        ++ String JS.LF (String.concat (String JS.LF EmptyString) errors))%string
               end)
        end
    end.

(** *** The query of [search] *)

(** [s.includes(needle)]. *)
Fixpoint includesText (needle s : string) : bool :=
  JS.startsWith needle s
  || match s with
     | EmptyString => false
     | String _ s' => includesText needle s'
     end.

Definition quoteChar : ascii := "034"%char.

Inductive SearchType : Type := SearchCode | SearchFile.

(** An optional string inside a template literal. *)
Definition templateStr (x : option string) : string :=
  match x with
  | Some s => s
  | None => "undefined"
  end.

(** The [searchQuery] that [search] builds, after the guard on an empty
    query. *)
Definition searchQuery (query project repository : option string)
    (type : option SearchType) : Result string :=
  if negb (truthyStr query) then
    Throws (InvalidParams "Query parameter is required")
  else
    let q0 := templateStr query in
    let q1 := if truthyStr project
              then (q0 ++ " project:" ++ templateStr project)%string else q0 in
    let q2 := if truthyStr repository && truthyStr project
              then (q1 ++ " repo:" ++ templateStr project ++ "/"
                      ++ templateStr repository)%string
              else q1 in
    Returns
      match type with
      | Some SearchFile =>
          if negb (includesText "ext:" (templateStr query))
             && negb (JS.startsWith (String quoteChar EmptyString)
                        (templateStr query)) then
            let f0 := (String quoteChar (templateStr query)
                         ++ String quoteChar EmptyString)%string in
            let f1 := if truthyStr project
                      then (f0 ++ " project:" ++ templateStr project)%string
                      else f0 in
            if truthyStr repository && truthyStr project
            then (f1 ++ " repo:" ++ templateStr project ++ "/"
                    ++ templateStr repository)%string
            else f1
          else q2
      | _ => q2
      end.

(** The scope of a search: the project, and the repository when there is
    a project. *)
Definition searchScope (project repository : option string) : string :=
  match project with
  | Some (String c p) =>
      (" project:" ++ String c p
       ++ match repository with
          | Some (String d r) => " repo:" ++ String c p ++ "/" ++ String d r
          | _ => ""
          end)%string
  | _ => ""
  end.

(** Whether [search] puts the query in quotes. *)
Definition searchQuoted (query : string) (type : option SearchType) : bool :=
  match type with
  | Some SearchFile =>
      negb (includesText "ext:" query)
      && negb (JS.startsWith (String quoteChar EmptyString) query)
  | _ => false
  end.

(** The sum of a list of numbers. *)
Definition sumZ (l : list Z) : Z := fold_right Z.add 0 l.

(** The first error, in the order of the paths, that is not a 404. *)
Fixpoint firstFailure (fetch : string -> FileFetch) (filePaths : list string)
    : option McpError :=
  match filePaths with
  | [] => None
  | filePath :: rest =>
      match fetch filePath with
      | Failed e => Some e
      | _ => firstFailure fetch rest
      end
  end.

(** The sections of the files found and the warnings for the files not
    found, each in the order of the paths. *)
Definition fileSections (fetch : string -> FileFetch) (filePaths : list string)
    : list string :=
  flat_map (fun filePath =>
              match fetch filePath with
              | Fetched data =>
                  [ ("=== " ++ filePath ++ " ===" ++ String JS.LF data)%string ]
              | _ => []
              end) filePaths.

Definition fileWarnings (fetch : string -> FileFetch) (filePaths : list string)
    : list string :=
  flat_map (fun filePath =>
              match fetch filePath with
              | NotFound => [ ("File not found in diff: " ++ filePath)%string ]
              | _ => []
              end) filePaths.

(* ================================================================= *)
(** ** The pattern language and the shape of a diff, in the words of the
       specification *)

Module Glob.

(** The tokens of a glob pattern: [**], [*], [?] and literal
    characters; two adjacent stars are read as one [**]. *)
Inductive token : Type :=
| TStarStar
| TStar
| TQuestion
| TLit (c : ascii).

Fixpoint tokens (pattern : string) : list token :=
  match pattern with
  | EmptyString => []
  | String c r =>
      if Ascii.eqb c "*" then
        match r with
        | String d r' =>
            if Ascii.eqb d "*" then TStarStar :: tokens r'
            else TStar :: tokens r
        | EmptyString => [TStar]
        end
      else if Ascii.eqb c "?" then TQuestion :: tokens r
      else TLit c :: tokens r
  end.

Fixpoint noSlash (s : string) : bool :=
  match s with
  | EmptyString => true
  | String c s' => negb (Ascii.eqb c "/") && noSlash s'
  end.

Fixpoint noLineTerminator (s : string) : bool :=
  match s with
  | EmptyString => true
  | String c s' => negb (Header.isLineTerminator c) && noLineTerminator s'
  end.

Definition anyRun (s : string) : bool := true.

(** Anchored matching of a whole path: [*] stands for a run without
    [/], [?] for one character other than [/], a literal for itself,
    and [**] for a run that [starRun] admits ([anyRun] in the
    specification). *)
Inductive matches (starRun : string -> bool) : list token -> string -> Prop :=
| matches_nil : matches starRun [] EmptyString
| matches_lit c ts s :
    matches starRun ts s -> matches starRun (TLit c :: ts) (String c s)
| matches_question c ts s :
    Ascii.eqb c "/" = false ->
    matches starRun ts s -> matches starRun (TQuestion :: ts) (String c s)
| matches_star r ts s :
    noSlash r = true ->
    matches starRun ts s -> matches starRun (TStar :: ts) (r ++ s)%string
| matches_starstar r ts s :
    starRun r = true ->
    matches starRun ts s -> matches starRun (TStarStar :: ts) (r ++ s)%string.

End Glob.

(** The regular expression of a token, as source text and as parsed;
    [tokenPlaceholder] is the text that stands for it before the last
    replacement, when [**] is still the placeholder. *)
Definition tokenSource (t : Glob.token) : string :=
  match t with
  | Glob.TStarStar => ".*"
  | Glob.TStar => "[^/]*"
  | Glob.TQuestion => "[^/]"
  | Glob.TLit c =>
      if Regex.isEscaped c then String "\" (String c EmptyString)
      else String c EmptyString
  end.

Definition tokenPlaceholder (t : Glob.token) : string :=
  match t with
  | Glob.TStarStar => "{{GLOBSTAR}}"
  | _ => tokenSource t
  end.

Definition tokenItem (t : Glob.token) : Regex.item :=
  match t with
  | Glob.TStarStar => Regex.Star Regex.CDot
  | Glob.TStar => Regex.Star Regex.CNotSlash
  | Glob.TQuestion => Regex.One Regex.CNotSlash
  | Glob.TLit c => Regex.One (Regex.CLit c)
  end.

(** A literal token is neither a star nor a question mark. *)
Definition tokenOk (t : Glob.token) : bool :=
  match t with
  | Glob.TLit c => negb (Ascii.eqb c "*") && negb (Ascii.eqb c "?")
  | _ => true
  end.

Fixpoint flatten (pieces : list string) : string :=
  match pieces with
  | [] => EmptyString
  | x :: rest => (x ++ flatten rest)%string
  end.

(** A line: a string without a line feed. *)
Fixpoint isLine (s : string) : bool :=
  match s with
  | EmptyString => true
  | String c s' => negb (Ascii.eqb c JS.LF) && isLine s'
  end.

(** The patterns of an optional list: none when it is absent. *)
Definition patternsOf (pats : option (list string)) : list string :=
  match pats with
  | Some l => l
  | None => []
  end.

(** Lines without a [diff --git ] header line. *)
Definition noFileHeader (lines : list string) : bool :=
  forallb (fun line => negb (isFileHeader line)) lines.

(** A file segment: a [diff --git ] line from which the pattern extracts
    a name, and the lines up to the next such line. *)
Definition isSegment (seg : list string) : bool :=
  match seg with
  | [] => false
  | h :: body =>
      isFileHeader h && negb (String.eqb (filterFileName h) "")
      && noFileHeader body
  end.

Definition segmentName (seg : list string) : string :=
  match seg with
  | h :: _ => filterFileName h
  | [] => ""
  end.

Definition segmentPasses (opts : DiffFilterOptions) (seg : list string) : bool :=
  fileMatchesPatterns (segmentName seg) (includePaths opts) (excludePaths opts).

(** The hunk lines of a segment run from its first [@@] line on; its
    content lines are the hunk lines that are not [@@] lines. *)
Fixpoint hunkLines (seg : list string) : list string :=
  match seg with
  | [] => []
  | l :: rest => if isHunkHeader l then seg else hunkLines rest
  end.

Definition contentLineCount (seg : list string) : Z :=
  JS.len (filter (fun line => negb (isHunkHeader line)) (hunkLines seg)).

(** The segments a file cap of [m] keeps: the first [m] that pass the
    patterns. *)
Definition keptByMaxFiles (opts : DiffFilterOptions) (m : Z)
    (segs : list (list string)) : list (list string) :=
  firstn (Z.to_nat m) (filter (segmentPasses opts) segs).




(** The state in which the loop has just read the segment [seg]: the
    segment is buffered under its name. *)
Definition withSegment (st : FilterState) (seg : list string) : FilterState :=
  mkFilterState (f_result st) seg (segmentName seg)
    (f_includedFiles st) (f_excludedFiles st) (f_totalLines st)
    (f_reachedMaxFiles st) (f_reachedMaxLines st).

(** A segment read and then evaluated. *)
Definition settleSegment (opts : DiffFilterOptions) (st : FilterState)
    (seg : list string) : FilterState :=
  flushCurrentFile opts (withSegment st seg).

(** A sample segment: the header and metadata lines of [name], one hunk
    header and [n] added lines. *)
Definition sampleSegment (name : string) (n : nat) : list string :=
  [ ("diff --git a/" ++ name ++ " b/" ++ name)%string;
    ("--- a/" ++ name)%string;
    ("+++ b/" ++ name)%string;
    "@@ -0,0 +1 @@" ]
  ++ repeat "+line" n.

(** The file metadata lines the truncator is to keep in place. *)
Definition isMetadataLine (line : string) : bool :=
  isFileHeader line || isFileMetadata line.

(** A line the truncator may buffer or emit as its own: a line that is
    not a metadata line. *)
Definition plainLine (l : string) : Prop :=
  isLine l = true /\ isMetadataLine l = false.

(** What the loop of [truncateDiff] maintains after reading [seen]: the
    result holds the metadata lines of [seen], in their order; the buffer
    holds none. *)
Record TruncInv (seen : list string) (st : TruncState) : Prop := {
  inv_meta : filter isMetadataLine (t_result st) = filter isMetadataLine seen;
  inv_result : Forall (fun l => isLine l = true) (t_result st);
  inv_buffer : Forall plainLine (t_currentFileLines st);
  inv_name : isLine (t_currentFileName st) = true
}.

(** What the loop of [filterDiff] maintains after reading [seen], for
    every text: each header line read opens one file, which is counted
    once, as included or as excluded, when it is flushed; the caps, when
    positive, bound the counters. *)
Record FilterInv (opts : DiffFilterOptions) (seen : list string)
    (st : FilterState) : Prop := {
  finv_headers :
    f_includedFiles st + f_excludedFiles st
    + (match f_currentFileLines st with [] => 0 | _ => 1 end)
    = JS.len (filter isFileHeader seen);
  finv_nonneg :
    0 <= f_includedFiles st /\ 0 <= f_excludedFiles st /\ 0 <= f_totalLines st;
  finv_lines :
    f_totalLines st + JS.len (f_currentFileLines st) <= JS.len seen;
  finv_maxFiles :
    forall m, maxFiles opts = Some m -> 0 < m -> f_includedFiles st <= m;
  finv_maxLines :
    forall m, maxTotalLines opts = Some m -> 0 < m -> f_totalLines st <= m
}.

(** A pattern without a wildcard. *)
Fixpoint isLiteralPattern (pattern : string) : bool :=
  match pattern with
  | EmptyString => true
  | String c r =>
      negb (Ascii.eqb c "*") && negb (Ascii.eqb c "?") && isLiteralPattern r
  end.

(** A path in which the text [ b/] does not occur. *)
Fixpoint noSeparator (path : string) : bool :=
  match path with
  | EmptyString => true
  | String _ r => negb (JS.startsWith " b/" path) && noSeparator r
  end.

(** A block of a diff: a [diff --git ] line and the lines up to the next
    one.  The block is within a budget when its content lines, the lines
    after its first [@@] line that are not [@@] lines, are at most the
    budget and none of the lines from the first [@@] line on starts like
    a metadata line. *)
Definition isFileBlock (block : list string) : bool :=
  match block with
  | [] => false
  | h :: body => isFileHeader h && noFileHeader body
  end.

Definition blockWithin (m : Z) (block : list string) : bool :=
  forallb (fun line => negb (isFileMetadata line)) (hunkLines block)
  && (contentLineCount block <=? m).

(** The lines of a block before its first [@@] line. *)
Fixpoint beforeHunk (block : list string) : list string :=
  match block with
  | [] => []
  | l :: rest => if isHunkHeader l then [] else l :: beforeHunk rest
  end.

(** Between two iterations a file with a name has its header line in the
    buffer. *)
Definition fileOpen (st : FilterState) : Prop :=
  f_currentFileName st <> "" -> f_currentFileLines st <> [].

(* ================================================================= *)
(** * Properties *)

(** ** Arrays and slices *)

Section Slices.

Context {A : Type}.
Implicit Types (a : list A) (n : Z).

Lemma len_nonneg a : 0 <= JS.len a.
Proof. unfold JS.len. lia. Qed.

Lemma len_app a1 a2 : JS.len (a1 ++ a2) = JS.len a1 + JS.len a2.
Proof. unfold JS.len. rewrite length_app. lia. Qed.

Lemma len_filter_le (f : A -> bool) a : JS.len (filter f a) <= JS.len a.
Proof.
  unfold JS.len. induction a as [|x a IH]; simpl; [lia|].
  destruct (f x); simpl; lia.
Qed.

(** [a.slice(0, n)] is the first [n] elements. *)
Lemma slice_head a n :
  0 <= n <= JS.len a -> JS.slice a 0 (Some n) = firstn (Z.to_nat n) a.
Proof.
  intros Hn. unfold JS.slice, JS.relIndex.
  pose proof (len_nonneg a) as Hl.
  replace (0 <? 0) with false by reflexivity.
  destruct (n <? 0) eqn:En; [apply Z.ltb_lt in En; lia|].
  rewrite (Z.min_l 0) by lia. rewrite (Z.min_l n) by lia.
  simpl. now rewrite Z.sub_0_r.
Qed.

(** [a.slice(-n)] is the last [n] elements, when [n] is positive. *)
Lemma slice_tail a n :
  0 < n <= JS.len a ->
  JS.slice a (- n) None = skipn (List.length a - Z.to_nat n) a.
Proof.
  intros Hn. unfold JS.slice, JS.relIndex.
  destruct (- n <? 0) eqn:En; [|apply Z.ltb_ge in En; lia].
  rewrite Z.max_l by lia.
  assert (Hk : Z.to_nat (JS.len a + - n) = (List.length a - Z.to_nat n)%nat)
    by (unfold JS.len in *; lia).
  rewrite Hk. apply firstn_all2.
  rewrite length_skipn. unfold JS.len in *. lia.
Qed.

(** [a.slice(-0)] is the whole array: [-0] is not negative. *)
Lemma slice_minus_zero a : JS.slice a (- 0) None = a.
Proof.
  unfold JS.slice, JS.relIndex. simpl.
  pose proof (len_nonneg a).
  rewrite Z.min_l by lia. simpl. rewrite Z.sub_0_r.
  apply firstn_all2. unfold JS.len. lia.
Qed.

End Slices.

Lemma floorMul06_bounds m : 0 < m -> 0 <= JS.floorMul06 m <= m.
Proof.
  intros Hm. unfold JS.floorMul06. split.
  - apply Z.div_pos; lia.
  - apply Z.div_le_upper_bound; lia.
Qed.

Lemma floorMul04_bounds m : 0 < m -> 0 <= JS.floorMul04 m <= m.
Proof.
  intros Hm. unfold JS.floorMul04. split.
  - apply Z.div_pos; lia.
  - apply Z.div_le_upper_bound; lia.
Qed.

Lemma floorMul04_pos_iff m : 0 < JS.floorMul04 m <-> 3 <= m.
Proof.
  unfold JS.floorMul04. split; intros H.
  - destruct (Z_lt_le_dec m 3) as [Hlt|]; [|assumption].
    assert (m * 4 / 10 <= 0); [|lia].
    destruct (Z_lt_le_dec m 0).
    + apply Z.lt_le_incl, Z.div_lt_upper_bound; lia.
    + rewrite Z.div_small; lia.
  - apply Z.div_str_pos. lia.
Qed.

(** ** The per-file truncator *)

Lemma truncationMarker_length c t a b f :
  JS.len (truncationMarker c t a b f) = 5.
Proof. reflexivity. Qed.

(** C1, as amended.  For a budget [m > 0]: a segment whose content lines
    (the lines that do not start with [@@]) number at most [m] is returned
    as it is, whatever the number of its hunk headers; a segment with more
    content lines, when [floor (0.4 m)] is positive, is turned into all the
    hunk headers, the first [floor (0.6 m)] content lines, a blank line, a
    marker block of three bracketed lines and a blank line, and the last
    [floor (0.4 m)] content lines: headers + head + tail + 5 lines. *)
Theorem truncateFileSection_spec (fileLines : list string) (fileName : string)
    (m : Z) :
  0 < m ->
  let content := filter (fun line => negb (isHunkHeader line)) fileLines in
  let headers := filter isHunkHeader fileLines in
  let a := JS.floorMul06 m in
  let b := JS.floorMul04 m in
  (JS.len content <= m ->
   truncateFileSection fileLines fileName m = fileLines)
  /\ (m < JS.len content -> 0 < b ->
      truncateFileSection fileLines fileName m
      = headers
          ++ firstn (Z.to_nat a) content
          ++ truncationMarker (JS.len content - a - b) (JS.len content) a b fileName
          ++ skipn (List.length content - Z.to_nat b) content
      /\ JS.len (truncateFileSection fileLines fileName m)
         = JS.len headers + a + b + 5).
Proof.
  intros Hm content headers a b.
  pose proof (len_filter_le (fun line => negb (isHunkHeader line)) fileLines) as Hle.
  pose proof (floorMul06_bounds m Hm) as Ha.
  pose proof (floorMul04_bounds m Hm) as Hb.
  fold content in Hle. fold a in Ha. fold b in Hb.
  split.
  - intros Hc. unfold truncateFileSection. fold content.
    destruct (JS.len fileLines <=? m); [reflexivity|].
    apply Z.leb_le in Hc. now rewrite Hc.
  - intros Hc Hbpos.
    assert (Heq : truncateFileSection fileLines fileName m
                  = headers
                      ++ firstn (Z.to_nat a) content
                      ++ truncationMarker (JS.len content - a - b)
                           (JS.len content) a b fileName
                      ++ skipn (List.length content - Z.to_nat b) content).
    { unfold truncateFileSection. fold content headers a b.
      destruct (JS.len fileLines <=? m) eqn:E1; [apply Z.leb_le in E1; lia|].
      destruct (JS.len content <=? m) eqn:E2; [apply Z.leb_le in E2; lia|].
      rewrite slice_head by lia. rewrite slice_tail by lia. reflexivity. }
    split; [exact Heq|].
    rewrite Heq. rewrite !len_app, truncationMarker_length.
    unfold JS.len in *. rewrite length_firstn, length_skipn. lia.
Qed.

Lemma truncateFileSection_spec_witness :
  let fileLines := ["@@ -1,4 +1,4 @@"; " a"; "-b"; "+c"; " d"] in
  let content := filter (fun line => negb (isHunkHeader line)) fileLines in
  let headers := filter isHunkHeader fileLines in
  (JS.len content <= 3 -> truncateFileSection fileLines "f.ts" 3 = fileLines)
  /\ (3 < JS.len content -> 0 < JS.floorMul04 3 ->
      truncateFileSection fileLines "f.ts" 3
      = headers
          ++ firstn (Z.to_nat (JS.floorMul06 3)) content
          ++ truncationMarker
               (JS.len content - JS.floorMul06 3 - JS.floorMul04 3)
               (JS.len content) (JS.floorMul06 3) (JS.floorMul04 3) "f.ts"
          ++ skipn (List.length content - Z.to_nat (JS.floorMul04 3)) content
      /\ JS.len (truncateFileSection fileLines "f.ts" 3)
         = JS.len headers + JS.floorMul06 3 + JS.floorMul04 3 + 5).
Proof.
  apply (truncateFileSection_spec
           ["@@ -1,4 +1,4 @@"; " a"; "-b"; "+c"; " d"] "f.ts" 3).
  lia.
Defined.

(** C1 as stated fails: one hunk header and four content lines under a
    budget of three give 1 + 1 + 1 + 5 = 8 lines, not 1 + 1 + 1 + 6. *)
Lemma truncateFileSection_not_six_marker_lines :
  let fileLines := ["@@ -1,4 +1,4 @@"; " a"; "-b"; "+c"; " d"] in
  let content := filter (fun line => negb (isHunkHeader line)) fileLines in
  let headers := filter isHunkHeader fileLines in
  3 < JS.len content
  /\ truncateFileSection fileLines "f.ts" 3
     = [ "@@ -1,4 +1,4 @@"; " a"; "";
         "[*** FILE TRUNCATED: 2 lines hidden from f.ts ***]";
         "[*** File had 4 total lines, showing first 1 and last 1 ***]";
         "[*** Use maxLinesPerFile=0 to see complete diff ***]";
         ""; " d" ]
  /\ JS.len (truncateFileSection fileLines "f.ts" 3)
     <> JS.len headers + JS.floorMul06 3 + JS.floorMul04 3 + 6.
Proof.
  cbv zeta. split; [reflexivity|]. split; [reflexivity|].
  vm_compute. discriminate.
Qed.

(** With a budget of 1 or 2 the tail window is empty and [slice(-0)]
    returns every content line after the marker. *)
Example truncateFileSection_empty_tail_window :
  truncateFileSection ["@@ -1,4 +1,4 @@"; " a"; "-b"; "+c"; " d"] "f.ts" 2
  = [ "@@ -1,4 +1,4 @@"; " a"; "";
      "[*** FILE TRUNCATED: 3 lines hidden from f.ts ***]";
      "[*** File had 4 total lines, showing first 1 and last 0 ***]";
      "[*** Use maxLinesPerFile=0 to see complete diff ***]";
      ""; " a"; "-b"; "+c"; " d" ].
Proof. reflexivity. Qed.

(** ** Lines: [split] and [join] *)

Lemma append_empty_r (s : string) : (s ++ "")%string = s.
Proof. induction s as [|c s IH]; simpl; [reflexivity|now rewrite IH]. Qed.

Lemma append_assoc (s1 s2 s3 : string) :
  ((s1 ++ s2) ++ s3)%string = (s1 ++ (s2 ++ s3))%string.
Proof. induction s1 as [|c s1 IH]; simpl; [reflexivity|now rewrite IH]. Qed.

Lemma isLine_app (s1 s2 : string) :
  isLine (s1 ++ s2) = isLine s1 && isLine s2.
Proof.
  induction s1 as [|c s1 IH]; simpl; [reflexivity|].
  rewrite IH. now rewrite andb_assoc.
Qed.

Lemma split_nonempty (s : string) : JS.split s <> [].
Proof.
  destruct s as [|c s]; simpl; [discriminate|].
  destruct (Ascii.eqb c JS.LF); [discriminate|].
  destruct (JS.split s); discriminate.
Qed.

Lemma join_cons (x : string) (rest : list string) :
  rest <> [] -> JS.join (x :: rest) = (x ++ String JS.LF (JS.join rest))%string.
Proof. destruct rest; [congruence|reflexivity]. Qed.

(** Joining the lines of a text gives the text back. *)
Lemma join_split (s : string) : JS.join (JS.split s) = s.
Proof.
  induction s as [|c s IH]; [reflexivity|].
  cbn [JS.split]. destruct (Ascii.eqb c JS.LF) eqn:Ec.
  - apply Ascii.eqb_eq in Ec. subst c.
    rewrite join_cons by apply split_nonempty. simpl. now rewrite IH.
  - destruct (JS.split s) as [|h t] eqn:Es; [now apply split_nonempty in Es|].
    destruct t as [|h' t].
    + simpl in *. now rewrite IH.
    + rewrite join_cons by discriminate.
      rewrite join_cons in IH by discriminate.
      cbn [append]. now rewrite IH.
Qed.

Lemma split_isLine (s : string) : Forall (fun l => isLine l = true) (JS.split s).
Proof.
  induction s as [|c s IH]; simpl.
  - constructor; [reflexivity|constructor].
  - destruct (Ascii.eqb c JS.LF) eqn:Ec.
    + constructor; [reflexivity|exact IH].
    + destruct (JS.split s) as [|h t]; [repeat constructor; simpl; now rewrite Ec|].
      inversion IH; subst. constructor; [|assumption].
      simpl. rewrite Ec. assumption.
Qed.

Lemma split_line_app (x s : string) :
  isLine x = true ->
  JS.split (x ++ String JS.LF s) = x :: JS.split s.
Proof.
  induction x as [|c x IH]; intros Hx.
  - reflexivity.
  - simpl in Hx. apply andb_prop in Hx as [Hc Hx].
    cbn [append JS.split].
    destruct (Ascii.eqb c JS.LF); [discriminate|].
    now rewrite (IH Hx).
Qed.

Lemma split_line (x : string) : isLine x = true -> JS.split x = [x].
Proof.
  induction x as [|c x IH]; intros Hx; [reflexivity|].
  simpl in Hx. apply andb_prop in Hx as [Hc Hx].
  cbn [JS.split]. destruct (Ascii.eqb c JS.LF); [discriminate|].
  now rewrite (IH Hx).
Qed.

(** Splitting joined lines gives the lines back. *)
Lemma split_join (a : list string) :
  a <> [] -> Forall (fun l => isLine l = true) a -> JS.split (JS.join a) = a.
Proof.
  induction a as [|x rest IH]; intros Hne Hall; [congruence|].
  inversion Hall as [|? ? Hx Hrest]; subst.
  destruct rest as [|y rest].
  - simpl. now apply split_line.
  - rewrite join_cons by discriminate.
    rewrite split_line_app by assumption.
    now rewrite IH.
Qed.

(** ** C6: the paths that do nothing *)

(** C6.  With no option set the filter returns the text as it is, with
    no file counted and the number of lines of the text as [totalLines];
    the truncator with budget 0 returns the text as it is. *)
Theorem noop_paths_identity (d : string) :
  filterDiff d (mkOptions None None None None)
  = (d, mkStats 0 0 (JS.len (JS.split d)))
  /\ truncateDiff d 0 = d.
Proof. split; reflexivity. Qed.

(** The fast path is taken whenever every option is falsy: absent, an
    empty array, or zero. *)
Lemma filterDiff_fast_path (d : string) (opts : DiffFilterOptions) :
  noFiltering opts = true ->
  filterDiff d opts = (d, mkStats 0 0 (JS.len (JS.split d))).
Proof. intros H. unfold filterDiff. now rewrite H. Qed.

(** The guard of the truncator covers every budget at or below zero. *)
Lemma truncateDiff_nonpositive (d : string) (m : Z) :
  m <= 0 -> truncateDiff d m = d.
Proof.
  intros Hm. unfold truncateDiff.
  apply Z.leb_le in Hm. rewrite Hm. now rewrite orb_true_r.
Qed.

(** ** C10: the truncator and the file metadata lines *)

Lemma slice_In {A} (a : list A) (start : Z) (stop : option Z) (x : A) :
  In x (JS.slice a start stop) -> In x a.
Proof.
  unfold JS.slice. intros H.
  set (k := Z.to_nat (JS.relIndex (JS.len a) start)) in *.
  set (n := Z.to_nat _) in H.
  rewrite <- (firstn_skipn k a). apply in_or_app. right.
  rewrite <- (firstn_skipn n (skipn k a)). apply in_or_app. now left.
Qed.

Lemma string_of_uint_isLine (d : Decimal.uint) :
  isLine (NilEmpty.string_of_uint d) = true.
Proof. induction d; simpl; auto. Qed.

Lemma numToString_isLine (x : Z) : isLine (JS.numToString x) = true.
Proof.
  unfold JS.numToString, NilZero.string_of_int, NilZero.string_of_uint.
  destruct (Z.to_int x) as [d|d]; destruct d; simpl;
    auto using string_of_uint_isLine.
Qed.

Lemma dotRun_isLine (s : string) : isLine (Header.dotRun s) = true.
Proof.
  induction s as [|c s IH]; simpl; [reflexivity|].
  destruct (Header.isLineTerminator c) eqn:Ec; [reflexivity|].
  simpl. rewrite IH. unfold Header.isLineTerminator in Ec.
  apply orb_false_elim in Ec as [Ec _]. now rewrite Ec.
Qed.

Lemma groups_isLine (r g1 g2 : string) :
  Header.groups r = Some (g1, g2) -> isLine g2 = true.
Proof.
  revert g1. induction r as [|c r IH]; intros g1; cbn [Header.groups];
    [discriminate|].
  destruct (Header.isLineTerminator c); [discriminate|].
  destruct (Header.groups r) as [[h1 h2]|].
  - intros [= _ <-]. apply (IH h1). reflexivity.
  - destruct (JS.startsWith " b/" r); [|discriminate].
    pose proof (dotRun_isLine (Header.drop 3 r)) as Hd.
    destruct (Header.dotRun (Header.drop 3 r)); [discriminate|].
    now intros [= _ <-].
Qed.

Lemma exec_isLine (s g1 g2 : string) :
  Header.exec s = Some (g1, g2) -> isLine g2 = true.
Proof.
  induction s as [|c s IH]; simpl.
  - unfold Header.matchHere. simpl. discriminate.
  - destruct (Header.matchHere (String c s)) as [[h1 h2]|] eqn:Em.
    + intros [= _ <-]. unfold Header.matchHere in Em.
      destruct (JS.startsWith _ _); [|discriminate].
      now apply groups_isLine in Em.
    + exact IH.
Qed.

Lemma truncationMarker_plain c t a b (f : string) :
  isLine f = true -> Forall plainLine (truncationMarker c t a b f).
Proof.
  intros Hf. unfold truncationMarker, plainLine.
  repeat constructor; simpl;
    rewrite ?isLine_app; simpl; rewrite ?isLine_app; simpl;
    rewrite ?isLine_app; simpl; rewrite ?numToString_isLine, ?Hf; reflexivity.
Qed.

Lemma truncateFileSection_plain (cur : list string) (name : string) (m : Z) :
  isLine name = true ->
  Forall plainLine cur -> Forall plainLine (truncateFileSection cur name m).
Proof.
  intros Hname Hcur. unfold truncateFileSection.
  destruct (_ <=? _); [assumption|].
  destruct (_ <=? _); [assumption|].
  rewrite Forall_forall in Hcur.
  rewrite !Forall_app. repeat split.
  - apply Forall_forall. intros x Hx. apply filter_In in Hx. now apply Hcur.
  - apply Forall_forall. intros x Hx. apply slice_In, filter_In in Hx.
    now apply Hcur.
  - now apply truncationMarker_plain.
  - apply Forall_forall. intros x Hx. apply slice_In, filter_In in Hx.
    now apply Hcur.
Qed.

Lemma filter_plain (ls : list string) :
  Forall plainLine ls -> filter isMetadataLine ls = [].
Proof.
  induction 1 as [|l ls [_ Hl] _ IH]; simpl; [reflexivity|]. now rewrite Hl.
Qed.

Lemma Forall_plain_isLine (ls : list string) :
  Forall plainLine ls -> Forall (fun l => isLine l = true) ls.
Proof. apply Forall_impl. now intros l [H _]. Qed.

Lemma truncStep_inv (m : Z) (seen : list string) (st : TruncState)
    (line : string) :
  isLine line = true ->
  TruncInv seen st -> TruncInv (seen ++ [line]) (truncStep m st line).
Proof.
  intros Hline [Hmeta Hres Hbuf Hname]. unfold truncStep.
  assert (Hflush : forall cur,
             Forall plainLine cur ->
             filter isMetadataLine
               (t_result st ++ truncateFileSection cur (t_currentFileName st) m)
             = filter isMetadataLine seen
             /\ Forall (fun l => isLine l = true)
                  (t_result st ++ truncateFileSection cur (t_currentFileName st) m)).
  { intros cur Hcur.
    pose proof (truncateFileSection_plain cur _ m Hname Hcur) as Hp.
    split.
    - rewrite filter_app, (filter_plain _ Hp), app_nil_r. exact Hmeta.
    - apply Forall_app. split; [assumption|now apply Forall_plain_isLine]. }
  destruct (isFileHeader line) eqn:Eh.
  - assert (Hm : isMetadataLine line = true)
      by (unfold isMetadataLine; now rewrite Eh).
    assert (Hn : isLine match Header.exec line with
                        | Some (_, g2) => g2
                        | None => "unknown"
                        end = true).
    { destruct (Header.exec line) as [[g1 g2]|] eqn:Ex; [|reflexivity].
      now apply exec_isLine in Ex. }
    destruct (t_currentFileLines st) as [|l0 cur0] eqn:Ec.
    + constructor; simpl; try assumption; try constructor.
      * rewrite !filter_app, Hmeta. reflexivity.
      * apply Forall_app. split; [assumption|repeat constructor; assumption].
    + destruct (Hflush (l0 :: cur0) Hbuf) as [H1 H2].
      constructor; simpl; try assumption; try constructor.
      * rewrite filter_app, H1, filter_app. reflexivity.
      * apply Forall_app. split; [assumption|repeat constructor; assumption].
  - destruct (isFileMetadata line) eqn:Em.
    + constructor; simpl; try assumption.
      * rewrite !filter_app, Hmeta. reflexivity.
      * apply Forall_app. split; [assumption|repeat constructor; assumption].
    + assert (Hp : plainLine line).
      { split; [assumption|]. unfold isMetadataLine. now rewrite Eh, Em. }
      assert (Hseen : filter isMetadataLine (seen ++ [line])
                      = filter isMetadataLine seen).
      { rewrite filter_app. simpl. destruct Hp as [_ ->]. apply app_nil_r. }
      destruct (isHunkHeader line); [|destruct (t_inFileContent st)];
        constructor; simpl; try assumption; try congruence.
      * apply Forall_app. split; [assumption|repeat constructor; apply Hp].
      * apply Forall_app. split; [assumption|repeat constructor; apply Hp].
      * rewrite filter_app. simpl. destruct Hp as [_ ->].
        rewrite app_nil_r. congruence.
      * apply Forall_app. split; [assumption|repeat constructor; assumption].
Qed.

Lemma truncLoop_inv (m : Z) (lines seen : list string) (st : TruncState) :
  Forall (fun l => isLine l = true) lines ->
  TruncInv seen st ->
  TruncInv (seen ++ lines) (fold_left (truncStep m) lines st).
Proof.
  revert seen st. induction lines as [|line lines IH]; intros seen st Hl Hinv.
  - now rewrite app_nil_r.
  - inversion Hl; subst. simpl.
    replace (seen ++ line :: lines) with ((seen ++ [line]) ++ lines)
      by (now rewrite <- app_assoc).
    apply IH; [assumption|]. now apply truncStep_inv.
Qed.

Lemma truncateLines_metadata (m : Z) (lines : list string) :
  Forall (fun l => isLine l = true) lines ->
  filter isMetadataLine (truncateLines m lines) = filter isMetadataLine lines
  /\ Forall (fun l => isLine l = true) (truncateLines m lines).
Proof.
  intros Hl.
  assert (Hinit : TruncInv [] truncInit) by (constructor; simpl; auto).
  pose proof (truncLoop_inv m lines [] truncInit Hl Hinit) as [Hmeta Hres Hbuf Hname].
  simpl in Hmeta. unfold truncateLines, truncFinish.
  destruct (t_currentFileLines _) as [|l0 cur0] eqn:Ec; [now split|].
  pose proof (truncateFileSection_plain (l0 :: cur0) _ m Hname Hbuf) as Hp.
  split.
  - rewrite filter_app, (filter_plain _ Hp), app_nil_r. exact Hmeta.
  - apply Forall_app. split; [assumption|now apply Forall_plain_isLine].
Qed.

(** C10.  For every diff text and every budget, the lines of the output
    that start with [diff --git ], [index ], [+++] or [---] are the lines
    of the input that do, each once and in the same order. *)
Theorem truncateDiff_keeps_metadata (d : string) (m : Z) :
  filter isMetadataLine (JS.split (truncateDiff d m))
  = filter isMetadataLine (JS.split d).
Proof.
  unfold truncateDiff.
  destruct ((m =? 0) || (m <=? 0)); [reflexivity|].
  destruct (truncateLines_metadata m (JS.split d) (split_isLine d))
    as [Hmeta Hlines].
  destruct (truncateLines m (JS.split d)) as [|l ls] eqn:Et.
  - rewrite <- Hmeta. reflexivity.
  - rewrite split_join by (congruence || assumption). exact Hmeta.
Qed.

(** ** C7: exclude before include *)

Lemma existsb_matches (path : string) (pats : list string) :
  existsb (matchesGlobPattern path) pats = true
  <-> exists p, In p pats /\ matchesGlobPattern path p = true.
Proof. apply existsb_exists. Qed.

Lemma fileMatchesPatterns_unfold (path : string)
    (inc exc : option (list string)) :
  fileMatchesPatterns path inc exc
  = if existsb (matchesGlobPattern path) (patternsOf exc) then false
    else match patternsOf inc with
         | [] => true
         | pats => existsb (matchesGlobPattern path) pats
         end.
Proof.
  unfold fileMatchesPatterns, patternsOf.
  destruct exc as [[|e exc]|], inc as [[|i inc]|]; reflexivity.
Qed.

(** C7.  A path that an exclude pattern matches is rejected, whatever the
    include patterns; a path that no exclude pattern matches is kept, when
    there are include patterns, exactly if one of them matches it, and
    always when there are none; [src/a.ts] with include [src/**] and
    exclude [**/*.ts] is rejected. *)
Theorem fileMatchesPatterns_exclude_first :
  (forall path inc exc,
      (exists p, In p (patternsOf exc) /\ matchesGlobPattern path p = true) ->
      fileMatchesPatterns path inc exc = false)
  /\ (forall path inc exc,
         ~ (exists p, In p (patternsOf exc) /\ matchesGlobPattern path p = true) ->
         patternsOf inc <> [] ->
         (fileMatchesPatterns path inc exc = true
          <-> exists p, In p (patternsOf inc) /\ matchesGlobPattern path p = true))
  /\ (forall path inc exc,
         ~ (exists p, In p (patternsOf exc) /\ matchesGlobPattern path p = true) ->
         patternsOf inc = [] ->
         fileMatchesPatterns path inc exc = true)
  /\ (forall path, fileMatchesPatterns path None None = true)
  /\ matchesGlobPattern "src/a.ts" "src/**" = true
  /\ matchesGlobPattern "src/a.ts" "**/*.ts" = true
  /\ fileMatchesPatterns "src/a.ts" (Some ["src/**"]) (Some ["**/*.ts"]) = false.
Proof.
  repeat split; try reflexivity.
  - intros path inc exc Hex. rewrite fileMatchesPatterns_unfold.
    apply existsb_matches in Hex. now rewrite Hex.
  - rewrite fileMatchesPatterns_unfold.
    destruct (existsb _ (patternsOf exc)) eqn:Ee.
    + apply existsb_matches in Ee. contradiction.
    + destruct (patternsOf inc); [congruence|]. apply existsb_matches.
  - rewrite fileMatchesPatterns_unfold.
    destruct (existsb _ (patternsOf exc)) eqn:Ee.
    + apply existsb_matches in Ee. contradiction.
    + destruct (patternsOf inc); [congruence|]. apply existsb_matches.
  - intros path inc exc Hex Hinc. rewrite fileMatchesPatterns_unfold.
    destruct (existsb _ (patternsOf exc)) eqn:Ee.
    + apply existsb_matches in Ee. contradiction.
    + now rewrite Hinc.
Qed.

(** ** C3, C4 and C9: inputs on which the filter departs from its
       description *)

(** C3.  A negative [maxFiles] or [maxTotalLines] is truthy and every
    count is at least it: the one file of this diff, kept when the limit
    is absent, is excluded.  The truncator does treat a negative budget
    as no budget. *)
Theorem filterDiff_negative_limit_excludes :
  let d := JS.join ["diff --git a/x.ts b/x.ts"; "@@ -1 +1 @@"; "-a"; "+b"] in
  filterDiff d (mkOptions (Some ["**"]) None None None)
  = (d, mkStats 1 0 4)
  /\ filterDiff d (mkOptions (Some ["**"]) None (Some (-1)) None)
     = (JS.join [ "";
                  "[*** DIFF FILTERED: 1 files excluded ***]";
                  "[*** Reached maxFiles limit of -1 ***]";
                  "[*** Showing 0 files, 0 lines ***]" ],
        mkStats 0 1 0)
  /\ filterDiff d (mkOptions (Some ["**"]) None None (Some (-1)))
     = (JS.join [ "";
                  "[*** DIFF FILTERED: 1 files excluded ***]";
                  "[*** Reached maxTotalLines limit of -1 ***]";
                  "[*** Showing 0 files, 0 lines ***]" ],
        mkStats 0 1 0)
  /\ truncateDiff d (-1) = d.
Proof. cbv zeta. repeat split; vm_compute; reflexivity. Qed.

(** C4.  The header [diff --git x.env x.env] has no [a/] and [b/]
    prefixes, so the name is the empty string, which is falsy: the lines
    after the header are pushed to the result at once.  The exclude
    pattern [*] rejects the empty name and the header is dropped, but the
    lines after it are in the output. *)
Theorem filterDiff_unparsed_header_leaks :
  filterFileName "diff --git x.env x.env" = ""
  /\ fileMatchesPatterns "" None (Some ["*"]) = false
  /\ filterDiff
       (JS.join ["diff --git x.env x.env"; "@@ -0,0 +1 @@"; "+KEY=secret"])
       (mkOptions None (Some ["*"]) None None)
     = (JS.join [ "@@ -0,0 +1 @@"; "+KEY=secret"; "";
                  "[*** DIFF FILTERED: 1 files excluded ***]";
                  "[*** Showing 0 files, 0 lines ***]" ],
        mkStats 0 1 0).
Proof. repeat split; vm_compute; reflexivity. Qed.

(** C9.  Same defect: the one segment passes the predicate and no cutoff
    fires, nothing is excluded, yet the output is not the input: the lines
    after the header come before it. *)
Theorem filterDiff_unparsed_header_reorders :
  let d := JS.join ["diff --git x.ts x.ts"; "@@ -1 +1 @@"; "-a"; "+b"] in
  let opts := mkOptions None None (Some 10) None in
  noFiltering opts = false
  /\ fileMatchesPatterns (filterFileName "diff --git x.ts x.ts")
       (includePaths opts) (excludePaths opts) = true
  /\ filterDiff d opts
     = (JS.join ["@@ -1 +1 @@"; "-a"; "+b"; "diff --git x.ts x.ts"],
        mkStats 1 0 1)
  /\ fst (filterDiff d opts) <> d.
Proof.
  cbv zeta. repeat split; try (vm_compute; reflexivity).
  vm_compute. discriminate.
Qed.

(** ** The filter loop, segment by segment *)

Lemma flush_clears_buffer (opts : DiffFilterOptions) (st : FilterState) :
  f_currentFileLines (flushCurrentFile opts st) = [].
Proof.
  unfold flushCurrentFile.
  destruct (f_currentFileLines st) eqn:Ec; [exact Ec|].
  repeat match goal with |- context [if ?b then _ else _] => destruct b end;
    reflexivity.
Qed.

Lemma flush_empty_buffer (opts : DiffFilterOptions) (st : FilterState) :
  f_currentFileLines st = [] -> flushCurrentFile opts st = st.
Proof. intros H. unfold flushCurrentFile. now rewrite H. Qed.

(** Lines read while a file with a non-empty name is open go to its
    buffer. *)
Lemma filterLoop_body (opts : DiffFilterOptions) (body : list string)
    (st : FilterState) :
  noFileHeader body = true ->
  f_currentFileName st <> "" ->
  fold_left (filterStep opts) body st
  = mkFilterState (f_result st) (f_currentFileLines st ++ body)
      (f_currentFileName st) (f_includedFiles st) (f_excludedFiles st)
      (f_totalLines st) (f_reachedMaxFiles st) (f_reachedMaxLines st).
Proof.
  revert st. induction body as [|line body IH]; intros st Hb Hn.
  - rewrite app_nil_r. now destruct st.
  - simpl in Hb. apply andb_prop in Hb as [Hl Hb].
    apply negb_true_iff in Hl.
    assert (En : String.eqb (f_currentFileName st) "" = false)
      by now apply String.eqb_neq.
    cbn [fold_left]. unfold filterStep at 2. rewrite Hl, En. cbn [negb].
    rewrite IH by assumption. cbn. now rewrite <- app_assoc.
Qed.

(** Lines read before any file go to the result. *)
Lemma filterLoop_preamble (opts : DiffFilterOptions) (pre : list string)
    (st : FilterState) :
  noFileHeader pre = true ->
  f_currentFileName st = "" ->
  fold_left (filterStep opts) pre st
  = mkFilterState (f_result st ++ pre) (f_currentFileLines st)
      (f_currentFileName st) (f_includedFiles st) (f_excludedFiles st)
      (f_totalLines st) (f_reachedMaxFiles st) (f_reachedMaxLines st).
Proof.
  revert st. induction pre as [|line pre IH]; intros st Hb Hn.
  - rewrite app_nil_r. now destruct st.
  - simpl in Hb. apply andb_prop in Hb as [Hl Hb].
    apply negb_true_iff in Hl.
    assert (En : String.eqb (f_currentFileName st) "" = true)
      by (rewrite Hn; reflexivity).
    cbn [fold_left]. unfold filterStep at 2. rewrite Hl, En. cbn [negb].
    rewrite IH by assumption. cbn. now rewrite <- app_assoc.
Qed.

(** Reading a whole segment: the file before it is evaluated and the
    segment is buffered. *)
Lemma filterLoop_segment (opts : DiffFilterOptions) (seg : list string)
    (st : FilterState) :
  isSegment seg = true ->
  fold_left (filterStep opts) seg st
  = withSegment (flushCurrentFile opts st) seg.
Proof.
  destruct seg as [|h body]; [discriminate|]. intros Hs. simpl in Hs.
  apply andb_prop in Hs as [Hs Hb]. apply andb_prop in Hs as [Hh Hn].
  apply negb_true_iff, String.eqb_neq in Hn.
  cbn [fold_left]. unfold filterStep at 2. rewrite Hh.
  rewrite filterLoop_body by assumption.
  cbn. rewrite flush_clears_buffer. reflexivity.
Qed.

Lemma filterLoop_segments (opts : DiffFilterOptions)
    (segs : list (list string)) (st : FilterState) :
  Forall (fun seg => isSegment seg = true) segs ->
  flushCurrentFile opts (fold_left (filterStep opts) (List.concat segs) st)
  = fold_left (settleSegment opts) segs (flushCurrentFile opts st).
Proof.
  revert st. induction segs as [|seg segs IH]; intros st Hs; [reflexivity|].
  inversion Hs; subst. cbn [List.concat fold_left].
  rewrite fold_left_app, (filterLoop_segment opts seg) by assumption.
  now rewrite IH.
Qed.

(** The whole run over a preamble followed by segments. *)
Lemma filterRun_segments (opts : DiffFilterOptions) (pre : list string)
    (segs : list (list string)) :
  noFileHeader pre = true ->
  Forall (fun seg => isSegment seg = true) segs ->
  filterRun opts (pre ++ List.concat segs)
  = fold_left (settleSegment opts) segs
      (mkFilterState pre [] "" 0 0 0 false false).
Proof.
  intros Hp Hs. unfold filterRun.
  rewrite fold_left_app.
  rewrite (filterLoop_preamble opts pre) by (assumption || reflexivity).
  rewrite filterLoop_segments by assumption.
  reflexivity.
Qed.

Lemma settleSegment_unfold (opts : DiffFilterOptions) (st : FilterState)
    (seg : list string) :
  isSegment seg = true ->
  settleSegment opts st seg
  = if segmentPasses opts seg && negb (f_reachedMaxFiles st)
       && negb (f_reachedMaxLines st) then
      if maxFilesHit opts (f_includedFiles st) then
        mkFilterState (f_result st) [] (segmentName seg)
          (f_includedFiles st) (f_excludedFiles st + 1) (f_totalLines st)
          true (f_reachedMaxLines st)
      else if maxLinesHit opts (f_totalLines st) (JS.len seg) then
        mkFilterState (f_result st) [] (segmentName seg)
          (f_includedFiles st) (f_excludedFiles st + 1) (f_totalLines st)
          (f_reachedMaxFiles st) true
      else
        mkFilterState (f_result st ++ seg) [] (segmentName seg)
          (f_includedFiles st + 1) (f_excludedFiles st)
          (f_totalLines st + JS.len seg)
          (f_reachedMaxFiles st) (f_reachedMaxLines st)
    else
      mkFilterState (f_result st) [] (segmentName seg)
        (f_includedFiles st) (f_excludedFiles st + 1) (f_totalLines st)
        (f_reachedMaxFiles st) (f_reachedMaxLines st).
Proof.
  destruct seg as [|h body]; [discriminate|]. intros _. reflexivity.
Qed.

Lemma len_cons {A} (x : A) (l : list A) : JS.len (x :: l) = 1 + JS.len l.
Proof. unfold JS.len. cbn [List.length]. lia. Qed.

Lemma len_nil {A} : JS.len (@nil A) = 0.
Proof. reflexivity. Qed.

Lemma maxLinesHit_unset (opts : DiffFilterOptions) (total n : Z) :
  JS.truthyNum (maxTotalLines opts) = false -> maxLinesHit opts total n = false.
Proof.
  unfold maxLinesHit, JS.truthyNum. destruct (maxTotalLines opts); [|reflexivity].
  now intros ->.
Qed.


Ltac conjuncts :=
  repeat split; try reflexivity; try assumption;
  try (unfold JS.len in *; rewrite ?length_app; cbn [List.length] in *; lia).

(** Once a cutoff flag is set, every later segment is excluded and
    nothing else changes. *)
Lemma fold_settle_after_cutoff (opts : DiffFilterOptions)
    (segs : list (list string)) :
  Forall (fun seg => isSegment seg = true) segs ->
  forall st,
    f_reachedMaxFiles st || f_reachedMaxLines st = true ->
    let st' := fold_left (settleSegment opts) segs st in
    f_result st' = f_result st
    /\ f_includedFiles st' = f_includedFiles st
    /\ f_excludedFiles st' = f_excludedFiles st + JS.len segs
    /\ f_totalLines st' = f_totalLines st
    /\ f_reachedMaxFiles st' = f_reachedMaxFiles st
    /\ f_reachedMaxLines st' = f_reachedMaxLines st.
Proof.
  induction 1 as [|seg segs Hseg _ IH]; intros st Hcut; cbn zeta.
  - cbn [fold_left]. rewrite len_nil. conjuncts.
  - cbn [fold_left]. rewrite (settleSegment_unfold opts st seg Hseg).
    assert (Hc : segmentPasses opts seg && negb (f_reachedMaxFiles st)
                 && negb (f_reachedMaxLines st) = false).
    { destruct (f_reachedMaxFiles st), (f_reachedMaxLines st);
        try discriminate; now rewrite ?andb_false_r. }
    rewrite Hc.
    match goal with |- context [fold_left _ segs ?s] =>
      specialize (IH s Hcut); cbn zeta in IH; cbn in IH;
      destruct IH as (-> & -> & -> & -> & -> & ->) end.
    rewrite len_cons. conjuncts.
Qed.

(** The run under a file cap alone. *)
Lemma fold_settle_maxFiles (opts : DiffFilterOptions) (m : Z)
    (segs : list (list string)) :
  maxFiles opts = Some m -> m <> 0 ->
  JS.truthyNum (maxTotalLines opts) = false ->
  Forall (fun seg => isSegment seg = true) segs ->
  forall st,
    f_reachedMaxLines st = false ->
    (f_reachedMaxFiles st = true -> m <= f_includedFiles st) ->
    let passing := filter (segmentPasses opts) segs in
    let kept := firstn (Z.to_nat (m - f_includedFiles st)) passing in
    let st' := fold_left (settleSegment opts) segs st in
    f_result st' = f_result st ++ List.concat kept
    /\ f_includedFiles st' = f_includedFiles st + JS.len kept
    /\ f_excludedFiles st' = f_excludedFiles st + JS.len segs - JS.len kept
    /\ f_totalLines st' = f_totalLines st + JS.len (List.concat kept)
    /\ f_reachedMaxFiles st'
       = f_reachedMaxFiles st || (JS.len kept <? JS.len passing)
    /\ f_reachedMaxLines st' = false.
Proof.
  intros Hmf Hm Hml. induction 1 as [|seg segs Hseg Hsegs IH];
    intros st Hrl Hrf; cbn zeta.
  - cbn [fold_left filter]. rewrite firstn_nil. cbn [List.concat].
    rewrite app_nil_r, !len_nil. cbn. rewrite orb_false_r. conjuncts.
  - cbn [fold_left filter]. rewrite (settleSegment_unfold opts st seg Hseg).
    rewrite (maxLinesHit_unset opts _ _ Hml).
    unfold maxFilesHit. rewrite Hmf.
    assert (Hm0 : negb (m =? 0) = true)
      by (apply negb_true_iff, Z.eqb_neq; assumption).
    rewrite Hm0, Hrl. cbn [andb negb]. rewrite andb_true_r.
    pose proof (len_nonneg (filter (segmentPasses opts) segs)) as Hpos.
    destruct (segmentPasses opts seg) eqn:Ep;
      destruct (f_reachedMaxFiles st) eqn:Hnf;
      destruct (f_includedFiles st >=? m) eqn:Ege;
      cbn [andb negb orb];
      try (specialize (Hrf eq_refl));
      try (apply Z.geb_le in Ege);
      try (rewrite Z.geb_leb in Ege; apply Z.leb_gt in Ege);
      try lia.
    + (* passes, the flag is already set *)
      replace (Z.to_nat (m - f_includedFiles st)) with O by lia.
      match goal with |- context [fold_left _ segs ?s] =>
        destruct (fold_settle_after_cutoff opts segs Hsegs s eq_refl)
          as (E1 & E2 & E3 & E4 & E5 & E6)
      end.
      cbn in E1, E2, E3, E4, E5, E6. rewrite E1, E2, E3, E4, E5, E6.
      cbn [firstn List.concat]. rewrite app_nil_r, !len_nil, !len_cons.
      conjuncts.
    + (* passes and reaches the cap: the flag is set *)
      replace (Z.to_nat (m - f_includedFiles st)) with O by lia.
      match goal with |- context [fold_left _ segs ?s] =>
        destruct (fold_settle_after_cutoff opts segs Hsegs s eq_refl)
          as (E1 & E2 & E3 & E4 & E5 & E6)
      end.
      cbn in E1, E2, E3, E4, E5, E6. rewrite E1, E2, E3, E4, E5, E6.
      cbn [firstn List.concat]. rewrite app_nil_r, !len_nil, !len_cons.
      conjuncts.
    + (* passes below the cap: kept *)
      replace (Z.to_nat (m - f_includedFiles st))
        with (S (Z.to_nat (m - (f_includedFiles st + 1)))) by lia.
      match goal with |- context [fold_left _ segs ?s] =>
        destruct (IH s) as (E1 & E2 & E3 & E4 & E5 & E6);
          [reflexivity|discriminate|]
      end.
      cbn in E1, E2, E3, E4, E5, E6. rewrite E1, E2, E3, E4, E5, E6.
      cbn [firstn List.concat]. rewrite !len_cons, !len_app, <- app_assoc.
      conjuncts.
    + (* fails the patterns, the flag is set *)
      match goal with |- context [fold_left _ segs ?s] =>
        destruct (IH s) as (E1 & E2 & E3 & E4 & E5 & E6);
          [reflexivity|intros _; assumption|]
      end.
      cbn in E1, E2, E3, E4, E5, E6. rewrite E1, E2, E3, E4, E5, E6.
      rewrite !len_cons. conjuncts.
    + (* fails the patterns, the flag is not set *)
      match goal with |- context [fold_left _ segs ?s] =>
        destruct (IH s) as (E1 & E2 & E3 & E4 & E5 & E6);
          [reflexivity|discriminate|]
      end.
      cbn in E1, E2, E3, E4, E5, E6. rewrite E1, E2, E3, E4, E5, E6.
      rewrite !len_cons. conjuncts.
    + match goal with |- context [fold_left _ segs ?s] =>
        destruct (IH s) as (E1 & E2 & E3 & E4 & E5 & E6);
          [reflexivity|discriminate|]
      end.
      cbn in E1, E2, E3, E4, E5, E6. rewrite E1, E2, E3, E4, E5, E6.
      rewrite !len_cons. conjuncts.
Qed.



Lemma noFiltering_limit (inc exc : option (list string)) (mf ml : option Z) :
  JS.truthyNum mf || JS.truthyNum ml = true ->
  noFiltering (mkOptions inc exc mf ml) = false.
Proof.
  unfold noFiltering. cbn.
  destruct (JS.truthyNum mf), (JS.truthyNum ml); try discriminate;
    intros _; cbn; now rewrite ?andb_false_r.
Qed.

Lemma truthyNum_nonzero (m : Z) : m <> 0 -> JS.truthyNum (Some m) = true.
Proof. intros H. cbn. now apply negb_true_iff, Z.eqb_neq. Qed.

(** ** C5: the file cap *)

Lemma filterDiff_maxFiles_kept (d : string) (pre : list string)
    (segs : list (list string)) (inc exc : option (list string)) (m : Z) :
  m <> 0 ->
  JS.split d = pre ++ List.concat segs ->
  noFileHeader pre = true ->
  Forall (fun seg => isSegment seg = true) segs ->
  let opts := mkOptions inc exc (Some m) None in
  let passing := filter (segmentPasses opts) segs in
  let kept := keptByMaxFiles opts m segs in
  filterDiff d opts
  = (JS.join (pre ++ List.concat kept
              ++ summaryBlock opts (JS.len kept) (JS.len segs - JS.len kept)
                   (JS.len (List.concat kept))
                   (JS.len kept <? JS.len passing) false),
     mkStats (JS.len kept) (JS.len segs - JS.len kept)
       (JS.len (List.concat kept))).
Proof.
  intros Hm Hd Hpre Hsegs opts passing kept.
  assert (Hnf : noFiltering opts = false)
    by (apply noFiltering_limit; rewrite (truthyNum_nonzero m Hm); reflexivity).
  unfold filterDiff. rewrite Hnf, Hd, filterRun_segments by assumption.
  destruct (fold_settle_maxFiles opts m segs eq_refl Hm eq_refl Hsegs
              (mkFilterState pre [] "" 0 0 0 false false) eq_refl)
    as (E1 & E2 & E3 & E4 & E5 & E6); [discriminate|].
  cbn in E1, E2, E3, E4, E5, E6. rewrite Z.sub_0_r in *.
  unfold filterSummary. fold opts.
  rewrite E1, E2, E3, E4, E5, E6.
  fold passing. fold (keptByMaxFiles opts m segs). fold kept.
  rewrite <- app_assoc. reflexivity.
Qed.

(** The file cap on segments whose header lines yield a file name.  Five
    such segments that all pass the patterns, under [maxFiles = 2]: the
    first two are in the output, the other three are excluded and the
    summary says so.  In general, under a file cap of [m] alone the
    segments kept are the first [m] that pass the patterns; every other
    segment is excluded, whether it passes or not. *)
Lemma filterDiff_maxFiles_cutoff :
  (forall d pre s1 s2 s3 s4 s5 inc exc,
      let opts := mkOptions inc exc (Some 2) None in
      JS.split d = pre ++ s1 ++ s2 ++ s3 ++ s4 ++ s5 ->
      noFileHeader pre = true ->
      Forall (fun seg => isSegment seg = true /\ segmentPasses opts seg = true)
        [s1; s2; s3; s4; s5] ->
      filterDiff d opts
      = (JS.join (pre ++ s1 ++ s2
                  ++ [ "";
                       "[*** DIFF FILTERED: 3 files excluded ***]";
                       "[*** Reached maxFiles limit of 2 ***]";
                       ("[*** Showing 2 files, "
                          ++ JS.numToString (JS.len s1 + JS.len s2)
                          ++ " lines ***]")%string ]),
         mkStats 2 3 (JS.len s1 + JS.len s2)))
  /\ (forall d pre segs inc exc m,
         let opts := mkOptions inc exc (Some m) None in
         let kept := keptByMaxFiles opts m segs in
         0 < m < 10 ^ 21 ->
         JS.split d = pre ++ List.concat segs ->
         noFileHeader pre = true ->
         Forall (fun seg => isSegment seg = true) segs ->
         filterDiff d opts
         = (JS.join (pre ++ List.concat kept
                     ++ summaryBlock opts (JS.len kept)
                          (JS.len segs - JS.len kept)
                          (JS.len (List.concat kept))
                          (JS.len kept <? JS.len (filter (segmentPasses opts) segs))
                          false),
            mkStats (JS.len kept) (JS.len segs - JS.len kept)
              (JS.len (List.concat kept)))).
Proof.
  split.
  - intros d pre s1 s2 s3 s4 s5 inc exc opts Hd Hpre Hall.
    pose proof (eq_refl : opts = mkOptions inc exc (Some 2) None) as Hopts.
    clearbody opts. subst opts.
    assert (Hsegs : Forall (fun seg => isSegment seg = true) [s1; s2; s3; s4; s5])
      by (eapply Forall_impl; [|exact Hall]; now intros seg [H _]).
    assert (Hpass : filter (segmentPasses (mkOptions inc exc (Some 2) None))
                      [s1; s2; s3; s4; s5]
                    = [s1; s2; s3; s4; s5]).
    { apply forallb_filter_id, forallb_forall. intros seg Hin.
      rewrite Forall_forall in Hall. now apply Hall. }
    rewrite (filterDiff_maxFiles_kept d pre [s1; s2; s3; s4; s5] inc exc 2);
      try assumption; try discriminate.
    + unfold keptByMaxFiles. rewrite Hpass.
      change (Z.to_nat 2) with 2%nat. cbn [Z.to_nat firstn List.concat].
      rewrite app_nil_r, len_app, <- app_assoc. reflexivity.
    + cbn [List.concat]. now rewrite app_nil_r.
  - intros d pre segs inc exc m opts kept Hm Hd Hpre Hsegs.
    apply filterDiff_maxFiles_kept; [lia|assumption..].
Qed.

Lemma filterDiff_maxFiles_cutoff_witness :
  let seg := fun name => sampleSegment name 1 in
  let d := JS.join (seg "src/a.ts" ++ seg "src/b.ts" ++ seg "src/c.ts" ++ seg "src/d.ts"
                    ++ seg "src/e.ts") in
  filterDiff d (mkOptions (Some ["**/*.ts"]) None (Some 2) None)
  = (JS.join (seg "src/a.ts" ++ seg "src/b.ts"
              ++ [ "";
                   "[*** DIFF FILTERED: 3 files excluded ***]";
                   "[*** Reached maxFiles limit of 2 ***]";
                   "[*** Showing 2 files, 10 lines ***]" ]),
     mkStats 2 3 10).
Proof.
  cbv zeta.
  apply (proj1 filterDiff_maxFiles_cutoff _ []
           (sampleSegment "src/a.ts" 1) (sampleSegment "src/b.ts" 1)
           (sampleSegment "src/c.ts" 1) (sampleSegment "src/d.ts" 1)
           (sampleSegment "src/e.ts" 1) (Some ["**/*.ts"]) None).
  - vm_compute. reflexivity.
  - reflexivity.
  - repeat (apply Forall_cons; [split; vm_compute; reflexivity|]).
    apply Forall_nil.
Defined.

(** C5.  The cutoff does not hold on every diff of five segments that
    pass the patterns.  Each of the five files below opens with a
    [diff --git] line that the header pattern does not match (no [a/] and
    [b/] before the paths), so each file is settled as its one header
    line under the empty name, and its hunk lines are appended to the
    result as lines before the first file.  Under [maxFiles = 2] and no
    patterns the counters come out as the claim says (2 included, 3
    excluded), yet the hunk lines of all five files are in the output,
    those of the three excluded files among them.  With parsed headers
    ([diff --git a/x b/x]) the same five files are cut as the claim says:
    the two first are in the output whole and nothing of the other
    three. *)
Theorem filterDiff_maxFiles_unparsed_headers :
  let file := fun header name => [header; "@@ -0,0 +1 @@"; ("+" ++ name)%string] in
  let bare := fun name =>
    file ("diff --git " ++ name ++ " " ++ name)%string name in
  let named := fun name =>
    file ("diff --git a/" ++ name ++ " b/" ++ name)%string name in
  let opts := mkOptions None None (Some 2) None in
  let summary := [ "";
                   "[*** DIFF FILTERED: 3 files excluded ***]";
                   "[*** Reached maxFiles limit of 2 ***]" ] in
  (* the five files are segments that pass the patterns *)
  forallb (fun seg => match seg with
                      | h :: body =>
                          isFileHeader h && noFileHeader body
                          && segmentPasses opts seg
                      | [] => false
                      end)
    [bare "a.ts"; bare "b.ts"; bare "c.ts"; bare "d.ts"; bare "e.ts"] = true
  (* what the code returns on them *)
  /\ filterDiff
       (JS.join (bare "a.ts" ++ bare "b.ts" ++ bare "c.ts" ++ bare "d.ts"
                 ++ bare "e.ts")) opts
     = (JS.join ([ "@@ -0,0 +1 @@"; "+a.ts";
                   "diff --git a.ts a.ts";
                   "@@ -0,0 +1 @@"; "+b.ts";
                   "diff --git b.ts b.ts";
                   "@@ -0,0 +1 @@"; "+c.ts";
                   "@@ -0,0 +1 @@"; "+d.ts";
                   "@@ -0,0 +1 @@"; "+e.ts" ]
                 ++ summary ++ [ "[*** Showing 2 files, 2 lines ***]" ]),
        mkStats 2 3 2)
  (* the same files with parsed headers *)
  /\ filterDiff
       (JS.join (named "a.ts" ++ named "b.ts" ++ named "c.ts"
                 ++ named "d.ts" ++ named "e.ts")) opts
     = (JS.join (named "a.ts" ++ named "b.ts"
                 ++ summary ++ [ "[*** Showing 2 files, 6 lines ***]" ]),
        mkStats 2 3 6).
Proof.
  cbv zeta. repeat split; vm_compute; reflexivity.
Qed.

(** A negative file cap keeps no segment at all: every count of included
    files is at least the cap. *)
Lemma filterDiff_negative_maxFiles (d : string) (pre : list string)
    (segs : list (list string)) (inc exc : option (list string)) (m : Z) :
  m < 0 ->
  JS.split d = pre ++ List.concat segs ->
  noFileHeader pre = true ->
  Forall (fun seg => isSegment seg = true) segs ->
  snd (filterDiff d (mkOptions inc exc (Some m) None))
  = mkStats 0 (JS.len segs) 0.
Proof.
  intros Hm Hd Hpre Hsegs.
  rewrite (filterDiff_maxFiles_kept d pre segs inc exc m)
    by (assumption || lia).
  unfold keptByMaxFiles. replace (Z.to_nat m) with O by lia.
  cbn [firstn List.concat snd]. rewrite !len_nil. f_equal. lia.
Qed.

(** ** C2: the line cap *)











(** ** The pass-through of C9 on diffs whose headers all carry a name *)

Lemma fold_settle_all_kept (opts : DiffFilterOptions)
    (segs : list (list string)) :
  Forall (fun seg => isSegment seg = true /\ segmentPasses opts seg = true)
    segs ->
  forall st,
    f_reachedMaxFiles st = false ->
    f_reachedMaxLines st = false ->
    (forall m, maxFiles opts = Some m -> m <> 0 ->
               f_includedFiles st + JS.len segs <= m) ->
    (forall m, maxTotalLines opts = Some m -> m <> 0 ->
               f_totalLines st + JS.len (List.concat segs) <= m) ->
    let st' := fold_left (settleSegment opts) segs st in
    f_result st' = f_result st ++ List.concat segs
    /\ f_includedFiles st' = f_includedFiles st + JS.len segs
    /\ f_excludedFiles st' = f_excludedFiles st
    /\ f_totalLines st' = f_totalLines st + JS.len (List.concat segs)
    /\ f_reachedMaxFiles st' = false
    /\ f_reachedMaxLines st' = false.
Proof.
  induction 1 as [|seg segs [Hseg Hpass] _ IH]; intros st Hrf Hrl Hmf Hml;
    cbn zeta.
  - cbn [fold_left List.concat]. rewrite app_nil_r. conjuncts.
  - cbn [fold_left]. rewrite (settleSegment_unfold opts st seg Hseg).
    rewrite Hpass, Hrf, Hrl. cbn [andb negb].
    pose proof (len_nonneg segs) as Hn1.
    pose proof (len_nonneg (List.concat segs)) as Hn2.
    pose proof (len_nonneg seg) as Hn3.
    cbn [List.concat] in Hml. rewrite len_app in Hml. rewrite len_cons in Hmf.
    assert (Hf : maxFilesHit opts (f_includedFiles st) = false).
    { unfold maxFilesHit. destruct (maxFiles opts) as [m|] eqn:Em; [|reflexivity].
      destruct (Z.eqb_spec m 0) as [|Hm0]; [reflexivity|]. cbn [negb andb].
      specialize (Hmf m eq_refl Hm0). rewrite Z.geb_leb. apply Z.leb_gt. lia. }
    assert (Hl : maxLinesHit opts (f_totalLines st) (JS.len seg) = false).
    { unfold maxLinesHit.
      destruct (maxTotalLines opts) as [m|] eqn:Em; [|reflexivity].
      destruct (Z.eqb_spec m 0) as [|Hm0]; [reflexivity|]. cbn [negb andb].
      specialize (Hml m eq_refl Hm0). rewrite Z.gtb_ltb. apply Z.ltb_ge. lia. }
    rewrite Hf, Hl.
    match goal with |- context [fold_left _ segs ?s] =>
      destruct (IH s) as (E1 & E2 & E3 & E4 & E5 & E6);
        [reflexivity|reflexivity| |
         |cbn in E1, E2, E3, E4, E5, E6; rewrite E1, E2, E3, E4, E5, E6]
    end.
    + intros m Em Hm0. cbn. specialize (Hmf m Em Hm0). lia.
    + intros m Em Hm0. cbn. specialize (Hml m Em Hm0). lia.
    + cbn [List.concat]. rewrite <- app_assoc, len_cons, len_app. conjuncts.
Qed.

(** When every header carries a name, every segment passes the patterns
    and no cap is exceeded, the filter returns the text as it is. *)
Lemma filterDiff_passthrough (d : string) (pre : list string)
    (segs : list (list string)) (opts : DiffFilterOptions) :
  noFiltering opts = false ->
  JS.split d = pre ++ List.concat segs ->
  noFileHeader pre = true ->
  Forall (fun seg => isSegment seg = true /\ segmentPasses opts seg = true)
    segs ->
  (forall m, maxFiles opts = Some m -> m <> 0 -> JS.len segs <= m) ->
  (forall m, maxTotalLines opts = Some m -> m <> 0 ->
             JS.len (List.concat segs) <= m) ->
  filterDiff d opts
  = (d, mkStats (JS.len segs) 0 (JS.len (List.concat segs))).
Proof.
  intros Hnf Hd Hpre Hall Hmf Hml.
  assert (Hsegs : Forall (fun seg => isSegment seg = true) segs)
    by (eapply Forall_impl; [|exact Hall]; now intros seg [H _]).
  unfold filterDiff. rewrite Hnf, Hd, filterRun_segments by assumption.
  destruct (fold_settle_all_kept opts segs Hall
              (mkFilterState pre [] "" 0 0 0 false false) eq_refl eq_refl)
    as (E1 & E2 & E3 & E4 & E5 & E6); [exact Hmf|exact Hml|].
  cbn in E1, E2, E3, E4, E5, E6.
  unfold filterSummary. rewrite E1, E2, E3, E4, E5, E6.
  unfold summaryBlock. cbn [Z.gtb Z.compare]. rewrite app_nil_r.
  rewrite <- Hd, join_split. reflexivity.
Qed.

(** ** C8: the glob matcher *)

Lemma replaceAll_skip (needle repl : string) (c : ascii) (s : string) :
  JS.startsWith needle (String c s) = false ->
  Regex.replaceAll needle repl (String c s)
  = String c (Regex.replaceAll needle repl s).
Proof.
  intros H. unfold Regex.replaceAll. cbn [Regex.replaceAllFrom]. now rewrite H.
Qed.

Lemma replaceAllFrom_pass (needle repl : string) (k : nat) (u s : string) :
  String.length u = k ->
  Regex.replaceAllFrom needle repl k (u ++ s)
  = Regex.replaceAllFrom needle repl O s.
Proof.
  revert u. induction k as [|k IH]; intros u Hu.
  - destruct u; [reflexivity|discriminate].
  - destruct u as [|c u]; [discriminate|]. cbn. apply IH. now injection Hu.
Qed.

Lemma startsWith_app (needle s : string) :
  JS.startsWith needle (needle ++ s) = true.
Proof.
  induction needle as [|c n IH]; cbn; [reflexivity|].
  now rewrite Ascii.eqb_refl, IH.
Qed.

Lemma replaceAll_hit (needle repl s : string) :
  needle <> EmptyString ->
  Regex.replaceAll needle repl (needle ++ s)
  = (repl ++ Regex.replaceAll needle repl s)%string.
Proof.
  intros Hne. unfold Regex.replaceAll.
  pose proof (startsWith_app needle s) as Hs.
  destruct needle as [|c n]; [congruence|].
  cbn [append Regex.replaceAllFrom] in *. rewrite Hs.
  cbn [String.length Nat.pred]. now rewrite replaceAllFrom_pass.
Qed.

Lemma startsWith_cons (a c : ascii) (p s : string) :
  JS.startsWith (String a p) (String c s)
  = Ascii.eqb a c && JS.startsWith p s.
Proof. reflexivity. Qed.

Lemma startsWith_head (a c : ascii) (p s : string) :
  Ascii.eqb a c = false -> JS.startsWith (String a p) (String c s) = false.
Proof. intros H. cbn. now rewrite H. Qed.

Lemma isEscaped_cases (c : ascii) :
  Regex.isEscaped c = true ->
  In c [ "."; "+"; "^"; "$"; "{"; "}"; "("; ")"; "|"; "["; "]"; "\" ]%char.
Proof.
  unfold Regex.isEscaped. intros H. apply existsb_exists in H as (x & Hin & Hx).
  apply Ascii.eqb_eq in Hx. now subst.
Qed.

Lemma isEscaped_false (c x : ascii) :
  Regex.isEscaped c = false ->
  In x [ "."; "+"; "^"; "$"; "{"; "}"; "("; ")"; "|"; "["; "]"; "\" ]%char ->
  Ascii.eqb c x = false /\ Ascii.eqb x c = false.
Proof.
  intros H Hin.
  assert (Hne : c <> x).
  { intros ->. unfold Regex.isEscaped in H.
    assert (existsb (Ascii.eqb x)
              [ "."; "+"; "^"; "$"; "{"; "}"; "("; ")"; "|"; "["; "]"; "\" ]%char
            = true); [|congruence].
    apply existsb_exists. exists x. split; [assumption|apply Ascii.eqb_refl]. }
  split; apply Ascii.eqb_neq; congruence.
Qed.

(** An escaped character is neither a star nor a question mark. *)
Lemma isEscaped_not_wildcard (c : ascii) :
  Regex.isEscaped c = true ->
  Ascii.eqb c "*" = false /\ Ascii.eqb c "?" = false
  /\ Regex.isSyntaxChar c = true.
Proof.
  intros H. apply isEscaped_cases in H. cbn [In] in H.
  repeat (destruct H as [<-|H]; [repeat split; reflexivity|]).
  contradiction.
Qed.

Lemma tokens_ok (pattern : string) :
  forallb tokenOk (Glob.tokens pattern) = true.
Proof.
  assert (H : forall n p, (String.length p <= n)%nat ->
                          forallb tokenOk (Glob.tokens p) = true).
  { induction n as [|n IH]; intros p Hp.
    - destruct p; [reflexivity|cbn in Hp; lia].
    - destruct p as [|c r]; [reflexivity|]. cbn in Hp. cbn [Glob.tokens].
      destruct (Ascii.eqb c "*") eqn:Es.
      + destruct r as [|d r']; [reflexivity|]. cbn in Hp.
        destruct (Ascii.eqb d "*"); cbn [forallb tokenOk andb];
          apply IH; cbn; lia.
      + destruct (Ascii.eqb c "?") eqn:Eq; cbn [forallb tokenOk];
          rewrite ?Es, ?Eq; cbn [negb andb]; apply IH; lia. }
  now apply (H (String.length pattern)).
Qed.

Ltac skip_chars :=
  repeat (rewrite replaceAll_skip
            by (reflexivity || (apply startsWith_head; assumption))).

Lemma escapeSpecials_head (d : ascii) (r : string) :
  Ascii.eqb d "*" = false ->
  JS.startsWith "*" (Regex.escapeSpecials (String d r)) = false.
Proof.
  intros Hd. cbn [Regex.escapeSpecials].
  destruct (Regex.isEscaped d); apply startsWith_head; [reflexivity|].
  now rewrite Ascii.eqb_sym.
Qed.

(** The text before the last replacement, token by token. *)
Lemma placeholder_stage (pattern : string) :
  Regex.replaceAll "?" "[^/]"
    (Regex.replaceAll "*" "[^/]*"
       (Regex.replaceAll "**" "{{GLOBSTAR}}" (Regex.escapeSpecials pattern)))
  = flatten (map tokenPlaceholder (Glob.tokens pattern)).
Proof.
  assert (H : forall n p, (String.length p <= n)%nat ->
    Regex.replaceAll "?" "[^/]"
      (Regex.replaceAll "*" "[^/]*"
         (Regex.replaceAll "**" "{{GLOBSTAR}}" (Regex.escapeSpecials p)))
    = flatten (map tokenPlaceholder (Glob.tokens p))).
  { induction n as [|n IH]; intros p Hp.
    - destruct p; [reflexivity|cbn in Hp; lia].
    - destruct p as [|c r]; [reflexivity|]. cbn [String.length] in Hp.
      cbn [Glob.tokens].
      destruct (Ascii.eqb c "*") eqn:Es.
      + apply Ascii.eqb_eq in Es. subst c.
        destruct r as [|d r']; [reflexivity|]. cbn [String.length] in Hp.
        destruct (Ascii.eqb d "*") eqn:Ed.
        * (* two stars *)
          apply Ascii.eqb_eq in Ed. subst d.
          change (Regex.escapeSpecials (String "*" (String "*" r')))
            with ("**" ++ Regex.escapeSpecials r')%string.
          rewrite replaceAll_hit by discriminate.
          cbn [append]. skip_chars.
          cbn [map flatten tokenPlaceholder append].
          rewrite IH by lia. reflexivity.
        * (* one star *)
          change (Regex.escapeSpecials (String "*" (String d r')))
            with (String "*" (Regex.escapeSpecials (String d r'))).
          rewrite (replaceAll_skip "**")
            by (rewrite startsWith_cons, (escapeSpecials_head d r' Ed);
                reflexivity).
          change (String "*" ?s) with ("*" ++ s)%string.
          rewrite (replaceAll_hit "*") by discriminate.
          cbn [append]. skip_chars.
          cbn [map flatten tokenPlaceholder tokenSource append].
          rewrite IH by (cbn; lia). reflexivity.
      + assert (Es' : Ascii.eqb "*" c = false) by now rewrite Ascii.eqb_sym.
        destruct (Ascii.eqb c "?") eqn:Eq.
        * (* a question mark *)
          apply Ascii.eqb_eq in Eq. subst c.
          change (Regex.escapeSpecials (String "?" r))
            with (String "?" (Regex.escapeSpecials r)).
          skip_chars.
          change (String "?" ?s) with ("?" ++ s)%string.
          rewrite (replaceAll_hit "?") by discriminate.
          cbn [map flatten tokenPlaceholder tokenSource append].
          rewrite IH by lia. reflexivity.
        * (* a literal *)
          assert (Eq' : Ascii.eqb "?" c = false) by now rewrite Ascii.eqb_sym.
          cbn [Regex.escapeSpecials map flatten tokenPlaceholder tokenSource].
          destruct (Regex.isEscaped c); skip_chars; cbn [append];
            rewrite IH by lia; reflexivity. }
  now apply (H (String.length pattern)).
Qed.

(** No text of tokens starts with what follows the first brace of the
    placeholder: an escaped brace in front of a placeholder is not taken
    for one. *)
Lemma placeholder_head (ts : list Glob.token) :
  JS.startsWith "{GLOBSTAR}}" (flatten (map tokenPlaceholder ts)) = false.
Proof.
  destruct ts as [|[| | |c] ts]; try reflexivity.
  cbn [map flatten tokenPlaceholder tokenSource].
  destruct (Regex.isEscaped c) eqn:Ec; [reflexivity|].
  apply startsWith_head.
  apply (isEscaped_false c "{" Ec). cbn. tauto.
Qed.

(** The last replacement, token by token. *)
Lemma final_stage (ts : list Glob.token) :
  Regex.replaceAll "{{GLOBSTAR}}" ".*" (flatten (map tokenPlaceholder ts))
  = flatten (map tokenSource ts).
Proof.
  induction ts as [|t ts IH]; [reflexivity|].
  destruct t as [| | |c]; cbn [map flatten tokenPlaceholder tokenSource].
  - rewrite replaceAll_hit by discriminate. now rewrite IH.
  - cbn [append]. skip_chars. now rewrite IH.
  - cbn [append]. skip_chars. now rewrite IH.
  - assert (Hc : JS.startsWith "{{GLOBSTAR}}"
                   (String c (flatten (map tokenPlaceholder ts))) = false).
    { rewrite startsWith_cons. destruct (Ascii.eqb "{" c); [|reflexivity].
      now rewrite placeholder_head. }
    destruct (Regex.isEscaped c); cbn [append]; skip_chars;
      rewrite (replaceAll_skip _ _ c) by exact Hc; now rewrite IH.
Qed.

Lemma globRegexSource_tokens (pattern : string) :
  globRegexSource pattern = flatten (map tokenSource (Glob.tokens pattern)).
Proof.
  unfold globRegexSource. rewrite placeholder_stage. apply final_stage.
Qed.

(** *** The source is in the fragment *)

Lemma not_star_head (rest : string) :
  JS.startsWith "*" rest = false ->
  rest = EmptyString
  \/ exists q r', rest = String q r' /\ Ascii.eqb q "*" = false.
Proof.
  destruct rest as [|q r']; [now left|]. rewrite startsWith_cons.
  intros H. right. exists q, r'. split; [reflexivity|].
  rewrite Ascii.eqb_sym. destruct (Ascii.eqb "*" q); [discriminate|reflexivity].
Qed.

Lemma tokenSource_head (t : Glob.token) (rest : string) :
  tokenOk t = true -> JS.startsWith "*" (tokenSource t ++ rest) = false.
Proof.
  destruct t as [| | |c]; try reflexivity. cbn [tokenOk tokenSource].
  intros H. apply andb_prop in H as [H _]. apply negb_true_iff in H.
  destruct (Regex.isEscaped c); [reflexivity|].
  apply startsWith_head. now rewrite Ascii.eqb_sym.
Qed.

Lemma isSyntaxChar_literal (c : ascii) :
  Regex.isEscaped c = false ->
  Ascii.eqb c "*" = false -> Ascii.eqb c "?" = false ->
  Regex.isSyntaxChar c = false.
Proof.
  intros He Hs Hq. unfold Regex.isSyntaxChar. cbn [existsb].
  rewrite Hs, Hq.
  repeat match goal with
         | |- context [Ascii.eqb c ?x] =>
             rewrite (proj1 (isEscaped_false c x He ltac:(cbn; tauto)))
         end.
  reflexivity.
Qed.

Lemma parse_token (t : Glob.token) (rest : string) :
  tokenOk t = true ->
  JS.startsWith "*" rest = false ->
  Regex.parse (tokenSource t ++ rest)
  = option_map (cons (tokenItem t)) (Regex.parse rest).
Proof.
  intros Hok Hrest.
  destruct t as [| | |c]; try reflexivity.
  - (* a question mark *)
    apply not_star_head in Hrest as [->|(q & r' & -> & Hq)]; [reflexivity|].
    cbn. now rewrite Hq.
  - (* a literal *)
    cbn [tokenOk] in Hok. apply andb_prop in Hok as [Hs Hq].
    apply negb_true_iff in Hs, Hq.
    cbn [tokenSource tokenItem].
    destruct (Regex.isEscaped c) eqn:He.
    + destruct (isEscaped_not_wildcard c He) as (_ & _ & Hsyn).
      cbn [append]. cbn [Regex.parse].
      change (Ascii.eqb "\" "^") with false.
      change (Ascii.eqb "\" "$") with false.
      change (Ascii.eqb "\" ".") with false.
      change (Ascii.eqb "\" "\") with true.
      cbv iota. rewrite Hsyn.
      apply not_star_head in Hrest as [->|(q & r' & -> & Hq')];
        [reflexivity|now rewrite Hq'].
    + cbn [append]. cbn [Regex.parse].
      rewrite (proj1 (isEscaped_false c "^" He ltac:(cbn; tauto))).
      rewrite (proj1 (isEscaped_false c "$" He ltac:(cbn; tauto))).
      rewrite (proj1 (isEscaped_false c "." He ltac:(cbn; tauto))).
      rewrite (proj1 (isEscaped_false c "\" He ltac:(cbn; tauto))).
      rewrite (proj1 (isEscaped_false c "[" He ltac:(cbn; tauto))).
      rewrite (isSyntaxChar_literal c He Hs Hq).
      apply not_star_head in Hrest as [->|(q & r' & -> & Hq')];
        [reflexivity|now rewrite Hq'].
Qed.

Lemma parse_tokens (ts : list Glob.token) (tail : string) :
  forallb tokenOk ts = true ->
  JS.startsWith "*" tail = false ->
  Regex.parse (flatten (map tokenSource ts) ++ tail)
  = option_map (app (map tokenItem ts)) (Regex.parse tail).
Proof.
  intros Hok Htail. induction ts as [|t ts IH].
  - cbn. now destruct (Regex.parse tail).
  - cbn [forallb] in Hok. apply andb_prop in Hok as [Ht Hts].
    cbn [map flatten]. rewrite append_assoc.
    rewrite parse_token; [|assumption|].
    + rewrite IH by assumption. now destruct (Regex.parse tail).
    + destruct ts as [|t' ts]; [exact Htail|].
      cbn [map flatten]. rewrite append_assoc.
      apply tokenSource_head.
      cbn [forallb] in Hts. now apply andb_prop in Hts as [? _].
Qed.

(** The regular expression built from a pattern always compiles, to the
    items of its tokens between the two anchors. *)
Lemma globRegexSource_parses (pattern : string) :
  Regex.parse ("^" ++ globRegexSource pattern ++ "$")
  = Some (Regex.AssertStart
            :: map tokenItem (Glob.tokens pattern) ++ [Regex.AssertEnd]).
Proof.
  rewrite globRegexSource_tokens.
  change ("^" ++ ?s)%string with (String "^" s).
  cbn [Regex.parse]. change (Ascii.eqb "^" "^") with true. cbv iota.
  rewrite parse_tokens by (apply tokens_ok || reflexivity).
  reflexivity.
Qed.

(** *** What the compiled expression accepts *)

Lemma searchFrom_anchored_late (its : list Regex.item) (s : string) :
  Regex.searchFrom (Regex.AssertStart :: its) false s = false.
Proof. induction s as [|c s IH]; cbn; [reflexivity|exact IH]. Qed.

(** With [^] in front, [test] only tries the start of the input. *)
Lemma test_anchored (its : list Regex.item) (s : string) :
  Regex.test (Regex.AssertStart :: its) s = Regex.matchItems its true s.
Proof.
  unfold Regex.test. destruct s as [|c s]; cbn [Regex.searchFrom].
  - cbn. now rewrite orb_false_r.
  - rewrite searchFrom_anchored_late, orb_false_r. reflexivity.
Qed.

Lemma matchItems_star_cons (cs : Regex.charset) (rest : list Regex.item)
    (b : bool) (c : ascii) (s : string) :
  Regex.matchItems (Regex.Star cs :: rest) b (String c s)
  = (Regex.accepts cs c && Regex.matchItems (Regex.Star cs :: rest) false s)
    || Regex.matchItems rest b (String c s).
Proof. reflexivity. Qed.

Lemma matchItems_star_nil (cs : Regex.charset) (rest : list Regex.item)
    (b : bool) :
  Regex.matchItems (Regex.Star cs :: rest) b EmptyString
  = Regex.matchItems rest b EmptyString.
Proof. reflexivity. Qed.

(** A starred class followed by [rest] accepts a run of the class
    followed by what [rest] accepts. *)
Lemma matchItems_star (cs : Regex.charset) (rest : list Regex.item)
    (P : string -> Prop) (run : string -> bool) :
  (forall b s, Regex.matchItems rest b s = true <-> P s) ->
  run EmptyString = true ->
  (forall c r, run (String c r) = Regex.accepts cs c && run r) ->
  forall s b,
    Regex.matchItems (Regex.Star cs :: rest) b s = true
    <-> exists r s', s = (r ++ s')%string /\ run r = true /\ P s'.
Proof.
  intros Hrest Hnil Hcons. induction s as [|c s IH]; intros b.
  - rewrite matchItems_star_nil, Hrest. split.
    + intros HP. exists EmptyString, EmptyString. auto.
    + intros (r & s' & Hs & _ & HP).
      destruct r; [|discriminate]. cbn in Hs. now subst s'.
  - rewrite matchItems_star_cons, orb_true_iff, andb_true_iff, IH, Hrest.
    split.
    + intros [[Hc (r & s' & -> & Hr & HP)]|HP].
      * exists (String c r), s'. repeat split; [|assumption].
        now rewrite Hcons, Hc, Hr.
      * exists EmptyString, (String c s). auto.
    + intros (r & s' & Hs & Hr & HP). destruct r as [|c' r].
      * right. cbn in Hs. now subst s'.
      * left. cbn in Hs. injection Hs as -> ->.
        rewrite Hcons in Hr. apply andb_prop in Hr as [Hc Hr].
        split; [assumption|]. now exists r, s'.
Qed.

Lemma matchItems_tokens (ts : list Glob.token) :
  forall b s,
    Regex.matchItems (map tokenItem ts ++ [Regex.AssertEnd]) b s = true
    <-> Glob.matches Glob.noLineTerminator ts s.
Proof.
  induction ts as [|t ts IH]; intros b s.
  - cbn. destruct s; split; intros H; try reflexivity; try discriminate.
    + constructor.
    + inversion H.
  - destruct t as [| | |c]; cbn [map app tokenItem].
    + (* a double star *)
      rewrite (matchItems_star Regex.CDot _ _ Glob.noLineTerminator IH)
        by reflexivity.
      split.
      * intros (r & s' & -> & Hr & HP). now constructor.
      * intros H. inversion H; subst. eauto.
    + (* a star *)
      rewrite (matchItems_star Regex.CNotSlash _ _ Glob.noSlash IH)
        by reflexivity.
      split.
      * intros (r & s' & -> & Hr & HP). now constructor.
      * intros H. inversion H; subst. eauto.
    + (* a question mark *)
      destruct s as [|d s]; cbn [Regex.matchItems Regex.accepts].
      * split; [discriminate|intros H; inversion H].
      * rewrite andb_true_iff, negb_true_iff, IH. split.
        -- intros [Hd HP]. now constructor.
        -- intros H. inversion H; subst. auto.
    + (* a literal *)
      destruct s as [|d s]; cbn [Regex.matchItems Regex.accepts].
      * split; [discriminate|intros H; inversion H].
      * rewrite andb_true_iff, IH. split.
        -- intros [Hd HP]. apply Ascii.eqb_eq in Hd. subst d. now constructor.
        -- intros H. inversion H; subst. split; [apply Ascii.eqb_refl|assumption].
Qed.

Lemma matchesGlobPattern_matches (path pattern : string) :
  matchesGlobPattern path pattern = true
  <-> Glob.matches Glob.noLineTerminator (Glob.tokens pattern) path.
Proof.
  unfold matchesGlobPattern.
  rewrite globRegexSource_parses, test_anchored. apply matchItems_tokens.
Qed.

Lemma noLineTerminator_app (r s : string) :
  Glob.noLineTerminator (r ++ s)
  = Glob.noLineTerminator r && Glob.noLineTerminator s.
Proof.
  induction r as [|c r IH]; cbn; [reflexivity|]. now rewrite IH, andb_assoc.
Qed.

(** On a path without a line terminator the run of a double star is any
    run. *)
Lemma matches_anyRun (ts : list Glob.token) (path : string) :
  Glob.noLineTerminator path = true ->
  (Glob.matches Glob.noLineTerminator ts path
   <-> Glob.matches Glob.anyRun ts path).
Proof.
  intros Hp. split.
  - clear Hp. induction 1; constructor; auto.
  - intros H. induction H as [|c ts s H IH|c ts s Hc H IH|r ts s Hr H IH
                             |r ts s Hr H IH].
    + constructor.
    + constructor. apply IH. cbn in Hp. now apply andb_prop in Hp as [_ ?].
    + constructor; [assumption|].
      apply IH. cbn in Hp. now apply andb_prop in Hp as [_ ?].
    + rewrite noLineTerminator_app in Hp. apply andb_prop in Hp as [_ Hs].
      constructor; [assumption|now apply IH].
    + rewrite noLineTerminator_app in Hp. apply andb_prop in Hp as [Hr' Hs].
      constructor; [assumption|now apply IH].
Qed.

(** The paths the matcher is given.  [matchesGlobPattern] is private and
    is called by [fileMatchesPatterns] alone, which [flushCurrentFile]
    calls on the current file name: the empty name or the second group
    of the header pattern on a line of the text, which is a run of [.]
    and so holds no line terminator. *)
Lemma dotRun_noLineTerminator (s : string) :
  Glob.noLineTerminator (Header.dotRun s) = true.
Proof.
  induction s as [|c s IH]; cbn [Header.dotRun]; [reflexivity|].
  destruct (Header.isLineTerminator c) eqn:Ec; [reflexivity|].
  cbn [Glob.noLineTerminator]. now rewrite Ec, IH.
Qed.

Lemma groups_noLineTerminator (r g1 g2 : string) :
  Header.groups r = Some (g1, g2) -> Glob.noLineTerminator g2 = true.
Proof.
  revert g1. induction r as [|c r IH]; intros g1; cbn [Header.groups];
    [discriminate|].
  destruct (Header.isLineTerminator c); [discriminate|].
  destruct (Header.groups r) as [[h1 h2]|].
  - intros [= _ <-]. apply (IH h1). reflexivity.
  - destruct (JS.startsWith " b/" r); [|discriminate].
    pose proof (dotRun_noLineTerminator (Header.drop 3 r)) as Hd.
    destruct (Header.dotRun (Header.drop 3 r)); [discriminate|].
    now intros [= _ <-].
Qed.

Lemma exec_noLineTerminator (s g1 g2 : string) :
  Header.exec s = Some (g1, g2) -> Glob.noLineTerminator g2 = true.
Proof.
  induction s as [|c s IH]; simpl.
  - unfold Header.matchHere. simpl. discriminate.
  - destruct (Header.matchHere (String c s)) as [[h1 h2]|] eqn:Em.
    + intros [= _ <-]. unfold Header.matchHere in Em.
      destruct (JS.startsWith _ _); [|discriminate].
      now apply groups_noLineTerminator in Em.
    + exact IH.
Qed.

Lemma filterFileName_noLineTerminator (line : string) :
  Glob.noLineTerminator (filterFileName line) = true.
Proof.
  unfold filterFileName.
  destruct (Header.exec line) as [[g1 g2]|] eqn:E; [|reflexivity].
  now apply exec_noLineTerminator in E.
Qed.

(** C8.  Over the whole path, [*] matches any run of characters other
    than [/], [?] one character other than [/], every other character
    itself, and [**] any run of characters, [/] among them: so it is on
    every path that holds no line terminator, and every path the filter
    gives the matcher, the file name read from whatever line, is such a
    path.  The three sample matches come out as stated. *)
Theorem matchesGlobPattern_spec :
  (forall path pattern,
      Glob.noLineTerminator path = true ->
      (matchesGlobPattern path pattern = true
       <-> Glob.matches Glob.anyRun (Glob.tokens pattern) path))
  /\ (forall line, Glob.noLineTerminator (filterFileName line) = true)
  /\ (forall line pattern,
         matchesGlobPattern (filterFileName line) pattern = true
         <-> Glob.matches Glob.anyRun (Glob.tokens pattern)
               (filterFileName line))
  /\ matchesGlobPattern "src/a/b.ts" "src/**/b.ts" = true
  /\ matchesGlobPattern "src/a/b.ts" "src/*/b.ts" = true
  /\ matchesGlobPattern "src/a/b/c.ts" "src/*/c.ts" = false.
Proof.
  assert (H : forall path pattern,
             Glob.noLineTerminator path = true ->
             (matchesGlobPattern path pattern = true
              <-> Glob.matches Glob.anyRun (Glob.tokens pattern) path)).
  { intros path pattern Hp.
    rewrite matchesGlobPattern_matches. now apply matches_anyRun. }
  split; [exact H|].
  split; [exact filterFileName_noLineTerminator|].
  split; [|repeat split; vm_compute; reflexivity].
  intros line pattern. apply H, filterFileName_noLineTerminator.
Qed.

(** Outside the pipeline, on a string that holds a line feed (no file
    name of the filter does), the run of [**] stops at the line feed,
    as the [.] of the regular expression does. *)
Lemma matchesGlobPattern_line_feed :
  let path := String "a" (String JS.LF (String "b" EmptyString)) in
  Glob.matches Glob.anyRun (Glob.tokens "**") path
  /\ matchesGlobPattern path "**" = false
  /\ matchesGlobPattern path "*" = true.
Proof.
  cbv zeta. split; [|split; vm_compute; reflexivity].
  change (Glob.tokens "**") with [Glob.TStarStar].
  rewrite <- (append_empty_r (String "a" (String JS.LF (String "b" EmptyString)))).
  constructor; [reflexivity|constructor].
Qed.

(* ================================================================= *)
(** * Further properties of the pipeline *)

(** ** The counters of [filterDiff], for every text *)

Ltac fields :=
  cbn [f_result f_currentFileLines f_currentFileName f_includedFiles
         f_excludedFiles f_totalLines f_reachedMaxFiles f_reachedMaxLines].

Lemma flush_inv (opts : DiffFilterOptions) (seen : list string)
    (st : FilterState) :
  FilterInv opts seen st ->
  FilterInv opts seen (flushCurrentFile opts st)
  /\ f_currentFileLines (flushCurrentFile opts st) = [].
Proof.
  intros [Hh (Hi & He & Ht) Hl Hmf Hml].
  split; [|apply flush_clears_buffer].
  unfold flushCurrentFile.
  destruct (f_currentFileLines st) as [|l0 cur] eqn:Ec.
  - constructor; rewrite ?Ec; auto.
  - pose proof (len_nonneg (l0 :: cur)) as Hn. rewrite len_cons in *.
    pose proof (len_nonneg cur) as Hn'.
    destruct (_ && _ && _).
    + destruct (maxFilesHit opts (f_includedFiles st)) eqn:Ef;
        [|destruct (maxLinesHit opts (f_totalLines st) (1 + JS.len cur)) eqn:El].
      * constructor; fields; rewrite ?(@len_nil string);
          try (repeat split; lia); auto.
      * constructor; fields; rewrite ?(@len_nil string);
          try (repeat split; lia); auto.
      * constructor; fields; rewrite ?(@len_nil string);
          try (repeat split; lia); auto.
        -- intros m Em Hm. unfold maxFilesHit in Ef. rewrite Em in Ef.
           specialize (Hmf m Em Hm).
           destruct (Z.eqb_spec m 0); [lia|]. cbn [negb andb] in Ef.
           rewrite Z.geb_leb in Ef. apply Z.leb_gt in Ef. lia.
        -- intros m Em Hm. unfold maxLinesHit in El. rewrite Em in El.
           destruct (Z.eqb_spec m 0); [lia|]. cbn [negb andb] in El.
           rewrite Z.gtb_ltb in El. apply Z.ltb_ge in El. lia.
    + constructor; fields; rewrite ?(@len_nil string);
          try (repeat split; lia); auto.
Qed.

Lemma filterStep_inv (opts : DiffFilterOptions) (seen : list string)
    (st : FilterState) (line : string) :
  FilterInv opts seen st /\ fileOpen st ->
  FilterInv opts (seen ++ [line]) (filterStep opts st line)
  /\ fileOpen (filterStep opts st line).
Proof.
  intros [Hinv Ho]. unfold filterStep, fileOpen in *.
  destruct (isFileHeader line) eqn:Eh.
  - destruct (flush_inv opts seen st Hinv)
      as [[Hh (Hi & He & Ht) Hl Hmf Hml] Hc].
    rewrite Hc in *. cbn [app]. split; [|cbn; discriminate].
    constructor; fields; rewrite ?filter_app, ?len_app; cbn [filter];
      rewrite ?Eh; auto.
    + unfold JS.len in *. cbn [List.length] in *. lia.
    + unfold JS.len in *. cbn [List.length] in *. lia.
  - destruct Hinv as [Hh (Hi & He & Ht) Hl Hmf Hml].
    assert (Hf : JS.len (filter isFileHeader (seen ++ [line]))
                 = JS.len (filter isFileHeader seen)).
    { rewrite filter_app. cbn [filter]. rewrite Eh. now rewrite app_nil_r. }
    destruct (String.eqb (f_currentFileName st) "") eqn:En; cbn [negb].
    + split; [|cbn; exact Ho].
      constructor; fields; rewrite ?Hf, ?len_app; auto.
      unfold JS.len in *. cbn [List.length] in *. lia.
    + apply String.eqb_neq in En. specialize (Ho En).
      split; [|cbn; intros _; destruct (f_currentFileLines st); discriminate].
      constructor; fields; rewrite ?Hf, ?len_app; auto.
      * destruct (f_currentFileLines st); [congruence|exact Hh].
      * unfold JS.len in *. cbn [List.length] in *. lia.
Qed.

Lemma filterLoop_inv (opts : DiffFilterOptions) (lines seen : list string)
    (st : FilterState) :
  FilterInv opts seen st /\ fileOpen st ->
  FilterInv opts (seen ++ lines) (fold_left (filterStep opts) lines st).
Proof.
  revert seen st. induction lines as [|line lines IH]; intros seen st Hinv.
  - rewrite app_nil_r. apply Hinv.
  - cbn [fold_left].
    replace (seen ++ line :: lines) with ((seen ++ [line]) ++ lines)
      by now rewrite <- app_assoc.
    apply IH. now apply filterStep_inv.
Qed.

Lemma filterRun_inv (opts : DiffFilterOptions) (lines : list string) :
  FilterInv opts lines (filterRun opts lines)
  /\ f_currentFileLines (filterRun opts lines) = [].
Proof.
  unfold filterRun. apply flush_inv.
  apply (filterLoop_inv opts lines [] filterInit).
  split; [|intros H; now contradiction H].
  constructor; cbn; auto; lia.
Qed.

Lemma noFiltering_truthy (opts : DiffFilterOptions) :
  JS.truthyNum (maxFiles opts) || JS.truthyNum (maxTotalLines opts) = true ->
  noFiltering opts = false.
Proof. destruct opts as [inc exc mf ml]. apply noFiltering_limit. Qed.

(** X1.  Whenever an option is set, every [diff --git ] line of the text
    is counted exactly once, as an included or as an excluded file. *)
Theorem filterDiff_counts_every_header (d : string) (opts : DiffFilterOptions) :
  noFiltering opts = false ->
  includedFiles (snd (filterDiff d opts)) + excludedFiles (snd (filterDiff d opts))
  = JS.len (filter isFileHeader (JS.split d)).
Proof.
  intros Hnf. unfold filterDiff. rewrite Hnf. cbn [snd includedFiles excludedFiles].
  destruct (filterRun_inv opts (JS.split d)) as [[Hh _ _ _ _] Hc].
  rewrite Hc in Hh. lia.
Qed.

Lemma filterDiff_counts_every_header_witness :
  let d := JS.join (sampleSegment "src/a.ts" 2 ++ ["diff --git x x"; "+y"]
                    ++ sampleSegment "b.lock" 1) in
  let opts := mkOptions None (Some ["*.lock"]) None None in
  includedFiles (snd (filterDiff d opts)) + excludedFiles (snd (filterDiff d opts))
  = JS.len (filter isFileHeader (JS.split d)).
Proof.
  cbv zeta. apply filterDiff_counts_every_header. reflexivity.
Defined.

(** X2.  A positive [maxFiles] is never exceeded, whatever the text and
    the other options. *)
Theorem filterDiff_within_maxFiles (d : string) (opts : DiffFilterOptions)
    (m : Z) :
  maxFiles opts = Some m -> 0 < m ->
  includedFiles (snd (filterDiff d opts)) <= m.
Proof.
  intros Em Hm. unfold filterDiff.
  rewrite noFiltering_truthy
    by (rewrite Em, truthyNum_nonzero by lia; reflexivity).
  cbn [snd includedFiles].
  destruct (filterRun_inv opts (JS.split d)) as [[_ _ _ Hmf _] _]. now apply Hmf.
Qed.

Lemma filterDiff_within_maxFiles_witness :
  includedFiles
    (snd (filterDiff
            (JS.join (sampleSegment "a" 1 ++ sampleSegment "b" 1
                      ++ sampleSegment "c" 1))
            (mkOptions None None (Some 2) (Some 100))))
  <= 2.
Proof.
  apply (filterDiff_within_maxFiles _ (mkOptions None None (Some 2) (Some 100)) 2).
  - reflexivity.
  - lia.
Defined.

(** X3.  A positive [maxTotalLines] is never exceeded by [totalLines],
    whatever the text and the other options. *)
Theorem filterDiff_within_maxTotalLines (d : string)
    (opts : DiffFilterOptions) (m : Z) :
  maxTotalLines opts = Some m -> 0 < m ->
  totalLines (snd (filterDiff d opts)) <= m.
Proof.
  intros Em Hm. unfold filterDiff.
  rewrite noFiltering_truthy
    by (rewrite Em, (truthyNum_nonzero m) by lia; apply orb_true_r).
  cbn [snd totalLines].
  destruct (filterRun_inv opts (JS.split d)) as [[_ _ _ _ Hml] _]. now apply Hml.
Qed.

Lemma filterDiff_within_maxTotalLines_witness :
  totalLines
    (snd (filterDiff
            (JS.join (sampleSegment "a" 1 ++ sampleSegment "b" 9
                      ++ sampleSegment "c" 1))
            (mkOptions None None None (Some 12))))
  <= 12.
Proof.
  apply (filterDiff_within_maxTotalLines _ (mkOptions None None None (Some 12)) 12).
  - reflexivity.
  - lia.
Defined.

(** X4.  For every text and every options the counters are not negative
    and [totalLines] is at most the number of lines of the text. *)
Theorem filterDiff_stats_bounds (d : string) (opts : DiffFilterOptions) :
  0 <= includedFiles (snd (filterDiff d opts))
  /\ 0 <= excludedFiles (snd (filterDiff d opts))
  /\ 0 <= totalLines (snd (filterDiff d opts)) <= JS.len (JS.split d).
Proof.
  unfold filterDiff. destruct (noFiltering opts).
  - cbn. pose proof (len_nonneg (JS.split d)). lia.
  - cbn [snd includedFiles excludedFiles totalLines].
    destruct (filterRun_inv opts (JS.split d)) as [[_ (Hi & He & Ht) Hl _ _] Hc].
    rewrite Hc in Hl. change (JS.len (@nil string)) with 0 in Hl. lia.
Qed.

(** ** The truncator on texts that need no truncation *)

Lemma truncateFileSection_within (cur : list string) (name : string) (m : Z) :
  JS.len (filter (fun line => negb (isHunkHeader line)) cur) <= m ->
  truncateFileSection cur name m = cur.
Proof.
  intros H. unfold truncateFileSection.
  destruct (JS.len cur <=? m); [reflexivity|].
  apply Z.leb_le in H. now rewrite H.
Qed.

Lemma fileHeader_not_hunkHeader (line : string) :
  isFileHeader line = true -> isHunkHeader line = false.
Proof.
  destruct line as [|c line]; [discriminate|].
  unfold isFileHeader, isHunkHeader. rewrite !startsWith_cons.
  destruct (Ascii.eqb_spec "d" c) as [<-|]; [reflexivity|discriminate].
Qed.

Lemma hunkHeader_not_metadata (line : string) :
  isHunkHeader line = true -> isFileMetadata line = false.
Proof.
  destruct line as [|c line]; [discriminate|].
  unfold isFileMetadata, isHunkHeader. rewrite !startsWith_cons.
  destruct (Ascii.eqb_spec "@" c) as [<-|]; [reflexivity|discriminate].
Qed.

Lemma fileHeader_not_hunkHeader_conv (line : string) :
  isHunkHeader line = true -> isFileHeader line = false.
Proof.
  intros H. destruct (isFileHeader line) eqn:E; [|reflexivity].
  apply fileHeader_not_hunkHeader in E. congruence.
Qed.

(** Inside a hunk, lines that are neither headers nor metadata lines are
    buffered. *)
Lemma truncLoop_hunk (m : Z) (lines : list string) (st : TruncState) :
  noFileHeader lines = true ->
  forallb (fun line => negb (isFileMetadata line)) lines = true ->
  t_inFileContent st = true ->
  fold_left (truncStep m) lines st
  = mkTruncState (t_result st) (t_currentFileLines st ++ lines)
      (t_currentFileName st) true.
Proof.
  revert st. induction lines as [|l lines IH]; intros st Hh Hm Hf.
  - rewrite app_nil_r. destruct st; cbn in *. now subst.
  - cbn [noFileHeader forallb] in Hh, Hm.
    apply andb_prop in Hh as [Hl Hh]. apply andb_prop in Hm as [Hlm Hm].
    apply negb_true_iff in Hl, Hlm.
    cbn [fold_left]. unfold truncStep at 2. rewrite Hl, Hlm, Hf.
    destruct (isHunkHeader l); rewrite IH by (assumption || reflexivity);
      cbn; now rewrite <- app_assoc.
Qed.

(** A run of lines without a header, read outside a hunk: the lines
    before the first [@@] line go to the result, the others to the
    buffer. *)
Lemma truncLoop_block (m : Z) (lines : list string) (st : TruncState) :
  noFileHeader lines = true ->
  forallb (fun line => negb (isFileMetadata line)) (hunkLines lines) = true ->
  t_inFileContent st = false ->
  let st' := fold_left (truncStep m) lines st in
  t_result st' = t_result st ++ beforeHunk lines
  /\ t_currentFileLines st' = t_currentFileLines st ++ hunkLines lines
  /\ t_currentFileName st' = t_currentFileName st.
Proof.
  revert st. induction lines as [|l lines IH]; intros st Hh Hm Hf; cbn zeta.
  - cbn. now rewrite !app_nil_r.
  - cbn [noFileHeader forallb] in Hh. apply andb_prop in Hh as [Hl Hh].
    apply negb_true_iff in Hl.
    cbn [fold_left hunkLines beforeHunk] in *.
    destruct (isHunkHeader l) eqn:Ek.
    + assert (Hs : truncStep m st l
                   = mkTruncState (t_result st) (t_currentFileLines st ++ [l])
                       (t_currentFileName st) true).
      { unfold truncStep.
        now rewrite Hl, (hunkHeader_not_metadata l Ek), Ek. }
      cbn [forallb] in Hm. apply andb_prop in Hm as [_ Hm].
      rewrite Hs, truncLoop_hunk by (assumption || reflexivity).
      cbn. repeat split; rewrite ?app_nil_r, <- ?app_assoc; reflexivity.
    + assert (Hs : truncStep m st l
                   = mkTruncState (t_result st ++ [l]) (t_currentFileLines st)
                       (t_currentFileName st) false).
      { unfold truncStep. rewrite Hl, Ek, Hf.
        destruct (isFileMetadata l); reflexivity. }
      rewrite Hs.
      match goal with |- context [fold_left _ lines ?s] =>
        destruct (IH s Hh Hm eq_refl) as (E1 & E2 & E3); rewrite E1, E2, E3
      end.
      cbn. repeat split; rewrite <- ?app_assoc; reflexivity.
Qed.

Lemma before_hunk_split (lines : list string) :
  beforeHunk lines ++ hunkLines lines = lines.
Proof.
  induction lines as [|l lines IH]; [reflexivity|].
  cbn [beforeHunk hunkLines].
  destruct (isHunkHeader l); [reflexivity|]. cbn [app]. now rewrite IH.
Qed.

(** The state after a prefix of blocks that are within the budget: result
    and buffer together are the lines read. *)
Lemma truncLoop_blocks (m : Z) (segs : list (list string)) :
  Forall (fun seg => isFileBlock seg = true /\ blockWithin m seg = true) segs ->
  forall st seen,
    t_result st ++ t_currentFileLines st = seen ->
    JS.len (filter (fun line => negb (isHunkHeader line)) (t_currentFileLines st))
    <= m ->
    let st' := fold_left (truncStep m) (List.concat segs) st in
    t_result st' ++ t_currentFileLines st' = seen ++ List.concat segs
    /\ JS.len (filter (fun line => negb (isHunkHeader line))
                 (t_currentFileLines st')) <= m.
Proof.
  induction 1 as [|seg segs [Hb Hw] _ IH]; intros st seen Hseen Hlen; cbn zeta.
  - cbn. now rewrite app_nil_r.
  - destruct seg as [|h body]; [discriminate|].
    cbn [isFileBlock] in Hb. apply andb_prop in Hb as [Hh Hbody].
    unfold blockWithin, contentLineCount in Hw. cbn [hunkLines] in Hw.
    rewrite (fileHeader_not_hunkHeader h Hh) in Hw.
    apply andb_prop in Hw as [Hmeta Hcount]. apply Z.leb_le in Hcount.
    cbn [List.concat]. rewrite fold_left_app. cbn [app fold_left].
    assert (Hs : truncStep m st h
                 = mkTruncState (seen ++ [h]) []
                     match Header.exec h with
                     | Some (_, g2) => g2
                     | None => "unknown"
                     end false).
    { unfold truncStep. rewrite Hh.
      destruct (t_currentFileLines st) as [|c0 cs] eqn:Ec.
      - rewrite app_nil_r in Hseen. now rewrite Hseen.
      - rewrite truncateFileSection_within by assumption. now rewrite Hseen. }
    rewrite Hs.
    match goal with |- context [fold_left _ body ?s] =>
      destruct (truncLoop_block m body s Hbody Hmeta eq_refl) as (E1 & E2 & E3);
      cbn in E1, E2, E3;
      destruct (IH (fold_left (truncStep m) body s) (seen ++ h :: body))
        as (F1 & F2)
    end.
    + rewrite E1, E2, <- !app_assoc. cbn [app].
      now rewrite before_hunk_split.
    + now rewrite E2.
    + split; [|exact F2]. rewrite F1, <- app_assoc. reflexivity.
Qed.

Lemma truncateDiff_blocks_within (d : string) (m : Z) (pre : list string)
    (segs : list (list string)) :
  JS.split d = pre ++ List.concat segs ->
  noFileHeader pre = true ->
  blockWithin m pre = true ->
  Forall (fun seg => isFileBlock seg = true /\ blockWithin m seg = true) segs ->
  truncateDiff d m = d.
Proof.
  intros Hd Hpre Hw Hsegs. unfold truncateDiff.
  destruct ((m =? 0) || (m <=? 0)); [reflexivity|].
  unfold truncateLines. rewrite Hd, fold_left_app.
  unfold blockWithin, contentLineCount in Hw.
  apply andb_prop in Hw as [Hmeta Hcount]. apply Z.leb_le in Hcount.
  destruct (truncLoop_block m pre truncInit Hpre Hmeta eq_refl) as (E1 & E2 & E3).
  cbn in E1, E2, E3.
  destruct (truncLoop_blocks m segs Hsegs (fold_left (truncStep m) pre truncInit) pre)
    as (F1 & F2).
  - rewrite E1, E2. apply before_hunk_split.
  - now rewrite E2.
  - unfold truncFinish.
    set (st := fold_left (truncStep m) (List.concat segs) _) in *.
    assert (Hout : match t_currentFileLines st with
                   | [] => t_result st
                   | cur =>
                       t_result st
                       ++ truncateFileSection cur (t_currentFileName st) m
                   end = pre ++ List.concat segs).
    { destruct (t_currentFileLines st) as [|c0 cs] eqn:Ec.
      - now rewrite app_nil_r in F1.
      - rewrite truncateFileSection_within by assumption. exact F1. }
    rewrite Hout, <- Hd. apply join_split.
Qed.

(** X5.  A text made of a preamble without a [diff --git] line and of
    file blocks is returned as it is when the preamble and every block
    are within the budget: the lines after the first [@@] line that are
    not [@@] lines are at most the budget, and no line from the first
    [@@] line on starts with [index ], [+++] or [---]. *)
Theorem truncateDiff_within_budget (d : string) (m : Z) (pre : list string)
    (segs : list (list string)) :
  JS.split d = pre ++ List.concat segs ->
  noFileHeader pre = true ->
  blockWithin m pre = true ->
  Forall (fun seg => isFileBlock seg = true /\ blockWithin m seg = true) segs ->
  truncateDiff d m = d.
Proof. apply truncateDiff_blocks_within. Qed.

Lemma truncateDiff_within_budget_witness :
  truncateDiff (JS.join ("preamble" :: sampleSegment "a.ts" 3
                           ++ sampleSegment "b.ts" 2)) 3
  = JS.join ("preamble" :: sampleSegment "a.ts" 3 ++ sampleSegment "b.ts" 2).
Proof.
  apply (truncateDiff_within_budget _ 3 ["preamble"]
           [sampleSegment "a.ts" 3; sampleSegment "b.ts" 2]).
  - vm_compute. reflexivity.
  - reflexivity.
  - reflexivity.
  - repeat (apply Forall_cons; [split; vm_compute; reflexivity|]).
    apply Forall_nil.
Defined.

Ltac tfields :=
  cbn [t_result t_currentFileLines t_currentFileName t_inFileContent].

(** X6.  A line inside a hunk that starts like a metadata line, such as a
    removed line whose text begins with two dashes, is written out at
    once while the hunk is buffered: it comes out in front of its hunk,
    even when nothing is truncated. *)
Theorem truncateDiff_moves_metadata_like_lines (d h k x : string) (m : Z)
    (hunk1 hunk2 : list string) :
  0 < m ->
  JS.split d = h :: (k :: hunk1) ++ x :: hunk2 ->
  isFileHeader h = true ->
  isHunkHeader k = true ->
  isFileHeader x = false -> isFileMetadata x = true ->
  noFileHeader (hunk1 ++ hunk2) = true ->
  forallb (fun line => negb (isFileMetadata line)) (hunk1 ++ hunk2) = true ->
  JS.len (filter (fun line => negb (isHunkHeader line)) (hunk1 ++ hunk2)) <= m ->
  truncateDiff d m = JS.join (h :: x :: (k :: hunk1) ++ hunk2).
Proof.
  intros Hm Hd Hh Hk Hxh Hxm Hnh Hnm Hlen. unfold truncateDiff.
  assert (Hg : (m =? 0) || (m <=? 0) = false).
  { destruct (Z.eqb_spec m 0); [lia|]. destruct (Z.leb_spec m 0); [lia|reflexivity]. }
  rewrite Hg, Hd. f_equal.
  unfold noFileHeader in Hnh. rewrite forallb_app in Hnh, Hnm.
  apply andb_prop in Hnh as [Hnh1 Hnh2]. apply andb_prop in Hnm as [Hnm1 Hnm2].
  unfold truncateLines. cbn [fold_left app]. rewrite fold_left_app. cbn [fold_left].
  assert (S1 : truncStep m truncInit h
               = mkTruncState [h] []
                   match Header.exec h with
                   | Some (_, g2) => g2
                   | None => "unknown"
                   end false)
    by (unfold truncStep; now rewrite Hh).
  rewrite S1.
  set (name := match Header.exec h with Some (_, g2) => g2 | None => "unknown" end).
  assert (S2 : truncStep m (mkTruncState [h] [] name false) k
               = mkTruncState [h] [k] name true).
  { unfold truncStep.
    now rewrite (fileHeader_not_hunkHeader_conv k Hk),
      (hunkHeader_not_metadata k Hk), Hk. }
  rewrite S2, (truncLoop_hunk m hunk1) by (assumption || reflexivity). tfields.
  assert (S3 : truncStep m (mkTruncState [h] ([k] ++ hunk1) name true) x
               = mkTruncState [h; x] ([k] ++ hunk1) name true)
    by (unfold truncStep; now rewrite Hxh, Hxm).
  rewrite S3, (truncLoop_hunk m hunk2) by (assumption || reflexivity). tfields.
  unfold truncFinish. tfields. rewrite <- app_assoc. cbn [app].
  rewrite truncateFileSection_within.
  - reflexivity.
  - cbn [filter]. rewrite Hk. exact Hlen.
Qed.

Lemma truncateDiff_moves_metadata_like_lines_witness :
  truncateDiff
    (JS.join [ "diff --git a/q.sql b/q.sql"; "@@ -1,3 +1,2 @@"; " select 1";
               "--- old comment"; " from t" ]) 10
  = JS.join [ "diff --git a/q.sql b/q.sql"; "--- old comment";
              "@@ -1,3 +1,2 @@"; " select 1"; " from t" ].
Proof.
  apply (truncateDiff_moves_metadata_like_lines _ "diff --git a/q.sql b/q.sql"
           "@@ -1,3 +1,2 @@" "--- old comment" 10 [" select 1"] [" from t"]);
    try reflexivity; try lia.
  vm_compute. discriminate.
Defined.

(** ** The per-file truncator, beyond the head and tail windows *)

Lemma truncateFileSection_cut (fileLines : list string) (fileName : string)
    (m : Z) :
  let content := filter (fun line => negb (isHunkHeader line)) fileLines in
  m < JS.len content ->
  truncateFileSection fileLines fileName m
  = filter isHunkHeader fileLines
      ++ JS.slice content 0 (Some (JS.floorMul06 m))
      ++ truncationMarker
           (JS.len content - JS.floorMul06 m - JS.floorMul04 m)
           (JS.len content) (JS.floorMul06 m) (JS.floorMul04 m) fileName
      ++ JS.slice content (- JS.floorMul04 m) None.
Proof.
  intros content Hc. unfold truncateFileSection. fold content.
  pose proof (len_filter_le (fun line => negb (isHunkHeader line)) fileLines) as Hle.
  fold content in Hle.
  destruct (JS.len fileLines <=? m) eqn:E1; [apply Z.leb_le in E1; lia|].
  destruct (JS.len content <=? m) eqn:E2; [apply Z.leb_le in E2; lia|].
  reflexivity.
Qed.

(** X7.  With a budget of 1 or 2 the tail window is empty and the whole
    content follows the marker: the output is longer than the input and
    hides nothing, though the marker says lines are hidden. *)
Theorem truncateFileSection_budget_below_three (fileLines : list string)
    (fileName : string) (m : Z) :
  let content := filter (fun line => negb (isHunkHeader line)) fileLines in
  0 < m < 3 ->
  m < JS.len content ->
  truncateFileSection fileLines fileName m
  = filter isHunkHeader fileLines
      ++ firstn (Z.to_nat (m - 1)) content
      ++ truncationMarker (JS.len content - (m - 1)) (JS.len content)
           (m - 1) 0 fileName
      ++ content
  /\ JS.len fileLines < JS.len (truncateFileSection fileLines fileName m).
Proof.
  intros content Hm Hc.
  assert (Ha : JS.floorMul06 m = m - 1).
  { assert (m = 1 \/ m = 2) as [->| ->] by lia; reflexivity. }
  assert (Hb : JS.floorMul04 m = 0).
  { assert (m = 1 \/ m = 2) as [->| ->] by lia; reflexivity. }
  assert (Heq : truncateFileSection fileLines fileName m
                = filter isHunkHeader fileLines
                    ++ firstn (Z.to_nat (m - 1)) content
                    ++ truncationMarker (JS.len content - (m - 1))
                         (JS.len content) (m - 1) 0 fileName
                    ++ content).
  { rewrite truncateFileSection_cut by exact Hc. fold content.
    rewrite Ha, Hb, Z.sub_0_r. rewrite slice_head by lia.
    rewrite slice_minus_zero. reflexivity. }
  split; [exact Heq|].
  rewrite Heq, !len_app, truncationMarker_length.
  assert (Hsplit : JS.len fileLines
                   = JS.len (filter isHunkHeader fileLines) + JS.len content).
  { unfold content, JS.len. clear. induction fileLines as [|l ls IH]; [reflexivity|].
    cbn [filter]. destruct (isHunkHeader l); cbn [negb List.length]; lia. }
  pose proof (len_nonneg (firstn (Z.to_nat (m - 1)) content)). lia.
Qed.

Lemma truncateFileSection_budget_below_three_witness :
  let fileLines := ["@@ -1,3 +1,3 @@"; " a"; "-b"; "+c"] in
  let content := filter (fun line => negb (isHunkHeader line)) fileLines in
  truncateFileSection fileLines "f" 2
  = filter isHunkHeader fileLines
      ++ firstn (Z.to_nat (2 - 1)) content
      ++ truncationMarker (JS.len content - (2 - 1)) (JS.len content)
           (2 - 1) 0 "f"
      ++ content
  /\ JS.len fileLines < JS.len (truncateFileSection fileLines "f" 2).
Proof.
  apply (truncateFileSection_budget_below_three
           ["@@ -1,3 +1,3 @@"; " a"; "-b"; "+c"] "f" 2).
  - lia.
  - vm_compute. reflexivity.
Defined.

(** X8.  From a budget of 3 on, a truncated segment shows [m] or [m - 1]
    of its content lines, and at least one line is hidden. *)
Theorem truncateFileSection_window_sizes (fileLines : list string)
    (fileName : string) (m : Z) :
  let content := filter (fun line => negb (isHunkHeader line)) fileLines in
  let headers := filter isHunkHeader fileLines in
  3 <= m ->
  m < JS.len content ->
  m - 1 <= JS.floorMul06 m + JS.floorMul04 m <= m
  /\ JS.len (truncateFileSection fileLines fileName m)
     = JS.len headers + (JS.floorMul06 m + JS.floorMul04 m) + 5
  /\ 1 <= JS.len content - JS.floorMul06 m - JS.floorMul04 m.
Proof.
  intros content headers Hm Hc.
  assert (Hw : m - 1 <= JS.floorMul06 m + JS.floorMul04 m <= m).
  { unfold JS.floorMul06, JS.floorMul04.
    pose proof (Z.div_mod (m * 6) 10 ltac:(lia)) as H6.
    pose proof (Z.div_mod (m * 4) 10 ltac:(lia)) as H4.
    pose proof (Z.mod_pos_bound (m * 6) 10 ltac:(lia)) as B6.
    pose proof (Z.mod_pos_bound (m * 4) 10 ltac:(lia)) as B4.
    lia. }
  pose proof (floorMul06_bounds m ltac:(lia)) as Ha.
  pose proof (floorMul04_bounds m ltac:(lia)) as Hb.
  pose proof (proj2 (floorMul04_pos_iff m) Hm) as Hbpos.
  split; [exact Hw|]. split; [|lia].
  rewrite truncateFileSection_cut by exact Hc. fold content headers.
  rewrite slice_head, slice_tail by lia.
  rewrite !len_app, truncationMarker_length.
  unfold JS.len in *. rewrite length_firstn, length_skipn. lia.
Qed.

Lemma truncateFileSection_window_sizes_witness :
  let fileLines := ["@@ -1,4 +1,4 @@"; " a"; "-b"; "+c"; " d"] in
  let content := filter (fun line => negb (isHunkHeader line)) fileLines in
  let headers := filter isHunkHeader fileLines in
  3 - 1 <= JS.floorMul06 3 + JS.floorMul04 3 <= 3
  /\ JS.len (truncateFileSection fileLines "f" 3)
     = JS.len headers + (JS.floorMul06 3 + JS.floorMul04 3) + 5
  /\ 1 <= JS.len content - JS.floorMul06 3 - JS.floorMul04 3.
Proof.
  apply (truncateFileSection_window_sizes
           ["@@ -1,4 +1,4 @@"; " a"; "-b"; "+c"; " d"] "f" 3).
  - lia.
  - vm_compute. reflexivity.
Defined.

Lemma filter_none {A} (f : A -> bool) (l : list A) :
  (forall x, In x l -> f x = false) -> filter f l = [].
Proof.
  induction l as [|x l IH]; intros H; [reflexivity|]. cbn.
  rewrite (H x (or_introl eq_refl)). apply IH. intros y Hy. apply H. now right.
Qed.

Lemma filter_idem {A} (f : A -> bool) (l : list A) :
  filter f (filter f l) = filter f l.
Proof.
  induction l as [|x l IH]; [reflexivity|]. cbn.
  destruct (f x) eqn:E; cbn; rewrite ?E, IH; reflexivity.
Qed.

(** X9.  For every segment, name and budget, the hunk-header lines of the
    output are the hunk-header lines of the input, in the same order: the
    truncator neither drops nor adds an [@@] line. *)
Theorem truncateFileSection_keeps_hunk_headers (fileLines : list string)
    (fileName : string) (m : Z) :
  filter isHunkHeader (truncateFileSection fileLines fileName m)
  = filter isHunkHeader fileLines.
Proof.
  unfold truncateFileSection.
  destruct (_ <=? _); [reflexivity|]. destruct (_ <=? _); [reflexivity|].
  assert (Hslice : forall a b,
             filter isHunkHeader
               (JS.slice (filter (fun line => negb (isHunkHeader line)) fileLines)
                  a b) = []).
  { intros a b. apply filter_none. intros x Hx.
    apply slice_In, filter_In in Hx. now apply negb_true_iff. }
  rewrite !filter_app, filter_idem, !Hslice. cbn. now rewrite app_nil_r.
Qed.

(** ** The glob matcher on particular shapes of pattern *)

Lemma tokens_literal (pattern : string) :
  isLiteralPattern pattern = true ->
  forall run path,
    Glob.matches run (Glob.tokens pattern) path <-> path = pattern.
Proof.
  induction pattern as [|c r IH]; intros Hlit run path.
  - cbn. split; [intros H; now inversion H|intros ->; constructor].
  - cbn [isLiteralPattern] in Hlit.
    apply andb_prop in Hlit as [Hlit Hr]. apply andb_prop in Hlit as [Hs Hq].
    apply negb_true_iff in Hs, Hq. cbn [Glob.tokens]. rewrite Hs, Hq. split.
    + intros H. inversion H; subst. f_equal. now apply (IH Hr run).
    + intros ->. constructor. now apply IH.
Qed.

(** X10.  A pattern without [*] and [?] matches one path only, the
    pattern itself, whatever regular-expression characters it holds. *)
Theorem matchesGlobPattern_literal (path pattern : string) :
  isLiteralPattern pattern = true ->
  (matchesGlobPattern path pattern = true <-> path = pattern).
Proof.
  intros Hlit. rewrite matchesGlobPattern_matches. now apply tokens_literal.
Qed.

Lemma matchesGlobPattern_literal_witness :
  matchesGlobPattern "a+b" "a.b" = true <-> "a+b" = "a.b".
Proof. apply matchesGlobPattern_literal. reflexivity. Defined.

Lemma noSlash_app (r s : string) :
  Glob.noSlash (r ++ s) = Glob.noSlash r && Glob.noSlash s.
Proof.
  induction r as [|c r IH]; cbn; [reflexivity|]. now rewrite IH, andb_assoc.
Qed.

(** X11.  A pattern that starts with [**/] matches no path without a
    [/]: the double star may stand for nothing, the slash after it may
    not, so [**/package-lock.json] does not match [package-lock.json]. *)
Theorem matchesGlobPattern_doublestar_slash (path pattern : string) :
  Glob.noSlash path = true ->
  matchesGlobPattern path ("**/" ++ pattern) = false.
Proof.
  intros Hp. destruct (matchesGlobPattern path ("**/" ++ pattern)) eqn:E;
    [|reflexivity].
  apply matchesGlobPattern_matches in E.
  change (Glob.tokens ("**/" ++ pattern))
    with (Glob.TStarStar :: Glob.TLit "/" :: Glob.tokens pattern) in E.
  inversion E as [| | | |r ts s Hr Hs]; subst.
  inversion Hs; subst.
  rewrite noSlash_app in Hp. apply andb_prop in Hp as [_ Hp]. discriminate.
Qed.

Lemma matchesGlobPattern_doublestar_slash_witness :
  matchesGlobPattern "package-lock.json" ("**/" ++ "package-lock.json") = false.
Proof. apply matchesGlobPattern_doublestar_slash. reflexivity. Defined.

(** X12.  More exclude patterns never accept a path that fewer reject,
    and more include patterns, added to a list that is not empty, never
    reject a path that fewer accept. *)
Theorem fileMatchesPatterns_monotone :
  (forall path inc exc more,
      fileMatchesPatterns path inc (Some (exc ++ more)) = true ->
      fileMatchesPatterns path inc (Some exc) = true)
  /\ (forall path i inc more exc,
         fileMatchesPatterns path (Some (i :: inc)) exc = true ->
         fileMatchesPatterns path (Some (i :: inc ++ more)) exc = true).
Proof.
  split.
  - intros path inc exc more. rewrite !fileMatchesPatterns_unfold.
    cbn [patternsOf]. rewrite existsb_app.
    destruct (existsb _ exc); [discriminate|]. cbn [orb].
    destruct (existsb _ more); [discriminate|auto].
  - intros path i inc more exc. rewrite !fileMatchesPatterns_unfold.
    cbn [patternsOf]. destruct (existsb _ (patternsOf exc)); [auto|].
    change (i :: inc ++ more) with ((i :: inc) ++ more).
    rewrite existsb_app. intros H.
    change (existsb (matchesGlobPattern path) (i :: inc) = true) in H.
    now rewrite H.
Qed.

(** ** The name taken from a header line *)

Lemma dotRun_id (q : string) :
  Glob.noLineTerminator q = true -> Header.dotRun q = q.
Proof.
  induction q as [|c q IH]; [reflexivity|]. cbn. intros H.
  apply andb_prop in H as [Hc Hq]. apply negb_true_iff in Hc.
  unfold Header.isLineTerminator in *. rewrite Hc. now rewrite IH.
Qed.

Lemma noSeparator_head (q : string) :
  noSeparator q = true -> JS.startsWith " b/" q = false.
Proof.
  destruct q as [|c q]; [reflexivity|]. cbn [noSeparator]. intros H.
  apply andb_prop in H as [H _]. now apply negb_true_iff in H.
Qed.

Lemma groups_no_separator (q : string) :
  noSeparator q = true -> Header.groups q = None.
Proof.
  induction q as [|c q IH]; [reflexivity|]. cbn [noSeparator]. intros H.
  apply andb_prop in H as [_ Hq]. cbn [Header.groups].
  destruct (Header.isLineTerminator c); [reflexivity|].
  now rewrite (IH Hq), (noSeparator_head q Hq).
Qed.

Lemma groups_at_separator (q : string) :
  noSeparator q = true -> Header.groups (" b/" ++ q) = None.
Proof.
  intros Hq. change (" b/" ++ q)%string with (String " " (String "b" (String "/" q))).
  cbn [Header.groups].
  change (Header.isLineTerminator " ") with false.
  change (Header.isLineTerminator "b") with false.
  change (Header.isLineTerminator "/") with false.
  cbv iota. rewrite (groups_no_separator q Hq), (noSeparator_head q Hq).
  reflexivity.
Qed.

Lemma groups_two_paths (p q : string) :
  p <> EmptyString -> q <> EmptyString ->
  Glob.noLineTerminator p = true -> Glob.noLineTerminator q = true ->
  noSeparator q = true ->
  Header.groups (p ++ " b/" ++ q) = Some (p, q).
Proof.
  intros Hp Hq Hlp Hlq Hsep. induction p as [|c p IH]; [congruence|].
  cbn [Glob.noLineTerminator] in Hlp. apply andb_prop in Hlp as [Hc Hlp].
  apply negb_true_iff in Hc.
  change (String c p ++ " b/" ++ q)%string
    with (String c (p ++ " b/" ++ q)).
  cbn [Header.groups]. rewrite Hc.
  destruct p as [|c' p].
  - change (EmptyString ++ " b/" ++ q)%string with (" b/" ++ q)%string.
    rewrite (groups_at_separator q Hsep), startsWith_app.
    change (Header.drop 3 (" b/" ++ q)) with q.
    rewrite (dotRun_id q Hlq). destruct q; [congruence|reflexivity].
  - now rewrite IH by (assumption || discriminate).
Qed.

(** X13.  From the header line [diff --git a/<old> b/<new>] the name
    taken is [<new>], when both paths are not empty, hold no line
    terminator, and [<new>] does not hold the text [ b/]. *)
Theorem filterFileName_two_paths (p q : string) :
  p <> EmptyString -> q <> EmptyString ->
  Glob.noLineTerminator p = true -> Glob.noLineTerminator q = true ->
  noSeparator q = true ->
  filterFileName ("diff --git a/" ++ p ++ " b/" ++ q) = q.
Proof.
  intros Hp Hq Hlp Hlq Hsep. unfold filterFileName.
  assert (Hm : Header.matchHere ("diff --git a/" ++ p ++ " b/" ++ q)
               = Some (p, q)).
  { unfold Header.matchHere. rewrite startsWith_app.
    change (Header.drop 13 ("diff --git a/" ++ p ++ " b/" ++ q))
      with (p ++ " b/" ++ q)%string.
    now apply groups_two_paths. }
  change ("diff --git a/" ++ p ++ " b/" ++ q)%string
    with (String "d" ("iff --git a/" ++ p ++ " b/" ++ q)) in *.
  cbn [Header.exec]. now rewrite Hm.
Qed.

Lemma filterFileName_two_paths_witness :
  filterFileName ("diff --git a/" ++ "old/name.ts" ++ " b/" ++ "src/new name.ts")
  = "src/new name.ts".
Proof.
  apply filterFileName_two_paths; (discriminate || reflexivity).
Defined.

(* ================================================================= *)
(** * Properties of the handlers *)

(** ** The read-only gate *)

Lemma callTool_returns (readOnly : bool) (name : string) (h : Handler) :
  callTool readOnly name = Returns h ->
  In name toolNames
  /\ (readOnly = true -> includesName readOnlyTools name = true
                         /\ postsToApi h = false).
Proof.
  unfold callTool.
  destruct (readOnly && negb (includesName readOnlyTools name)) eqn:G;
    [discriminate|].
  repeat match goal with
         | |- context [String.eqb name ?s] =>
             destruct (String.eqb_spec name s) as [->|?];
             [ intros [= <-]; split;
               [ cbn; tauto
               | intros ->; cbn in G; try discriminate; split; reflexivity ]
             | ]
         end.
  discriminate.
Qed.

(** X14.  In read-only mode no call reaches a method that posts to the
    API; and in either mode the tools offered are exactly the names a
    call is let through with. *)
Theorem readOnly_gate :
  (forall name h, callTool true name = Returns h -> postsToApi h = false)
  /\ (forall readOnly name,
         In name (listTools readOnly)
         <-> exists h, callTool readOnly name = Returns h).
Proof.
  split.
  - intros name h H. now apply (callTool_returns true name h H).
  - intros readOnly name. split.
    + unfold listTools. intros H. apply filter_In in H as [Hin Hok].
      cbn in Hin.
      repeat (destruct Hin as [<-|Hin];
              [destruct readOnly; try discriminate; eexists; reflexivity|]).
      contradiction.
    + intros [h H]. destruct (callTool_returns readOnly name h H) as [Hin Hro].
      unfold listTools. apply filter_In. split; [exact Hin|].
      destruct readOnly; [|reflexivity]. now destruct (Hro eq_refl) as [-> _].
Qed.

(** ** [getDiff] *)

Lemma isSegment_isFileBlock (seg : list string) :
  isSegment seg = true -> isFileBlock seg = true.
Proof.
  destruct seg as [|h body]; [discriminate|]. cbn. intros H.
  apply andb_prop in H as [H Hb]. apply andb_prop in H as [Hh _].
  now rewrite Hh, Hb.
Qed.

(** X15.  [getDiff] returns the fetched text as it is when the
    parameters are present, the filter options set a pattern or a cap,
    the text is a preamble without a [diff --git] line followed by files
    whose header lines yield a name, every file passes the patterns, no
    cap of the filter is exceeded, and the preamble and every file are
    within the limit on lines, the limit being that of the call or,
    without one, that of the configuration.  Within the limit means: the
    lines after the first [@@] line that are not [@@] lines are at most
    the limit, and no line from the first [@@] line on starts with
    [index ], [+++] or [---]. *)
Theorem getDiff_returns_text_unchanged (configMaxLines maxLinesPerFile : option Z)
    (params : PullRequestParams) (opts : DiffFilterOptions) (d : string)
    (m : Z) (pre : list string) (segs : list (list string)) :
  paramsMissing params = false ->
  match maxLinesPerFile with Some v => Some v | None => configMaxLines end
  = Some m ->
  noFiltering opts = false ->
  JS.split d = pre ++ List.concat segs ->
  noFileHeader pre = true ->
  blockWithin m pre = true ->
  Forall (fun seg => isSegment seg = true /\ segmentPasses opts seg = true
                     /\ blockWithin m seg = true) segs ->
  (forall v, maxFiles opts = Some v -> v <> 0 -> JS.len segs <= v) ->
  (forall v, maxTotalLines opts = Some v -> v <> 0 ->
             JS.len (List.concat segs) <= v) ->
  getDiff configMaxLines (Returns d) params maxLinesPerFile (Some opts)
  = Returns d.
Proof.
  intros Hparams Heff Hnf Hd Hpre Hw Hall Hmf Hml.
  unfold getDiff, getDiffText. rewrite Hparams, Heff.
  rewrite (filterDiff_passthrough d pre segs opts); try assumption.
  - cbn [fst].
    rewrite (truncateDiff_blocks_within d m pre segs); try assumption.
    + now destruct (m =? 0).
    + eapply Forall_impl; [|exact Hall]. intros seg (Hs & _ & Hb).
      split; [now apply isSegment_isFileBlock|exact Hb].
  - eapply Forall_impl; [|exact Hall]. now intros seg (Hs & Hp & _).
Qed.

Lemma getDiff_returns_text_unchanged_witness :
  let d := JS.join (sampleSegment "src/a.ts" 3 ++ sampleSegment "src/b.ts" 2) in
  getDiff (Some 3) (Returns d)
    (mkParams (Some "PRJ") (Some "repo") (Some 7)) None
    (Some (mkOptions (Some ["src/**"]) None (Some 2) None))
  = Returns d.
Proof.
  cbv zeta.
  apply (getDiff_returns_text_unchanged _ _ _ _ _ 3 []
           [sampleSegment "src/a.ts" 3; sampleSegment "src/b.ts" 2]);
    try (vm_compute; reflexivity).
  - repeat (apply Forall_cons; [repeat split; vm_compute; reflexivity|]).
    apply Forall_nil.
  - intros v [= <-] _. vm_compute. discriminate.
  - intros v [=].
Defined.

(** ** [getDiffStats] *)

Lemma statOfChange_fold (changes : list ChangeEntry) :
  forall ta td files,
    Forall (fun f => fs_path f <> "" /\ fs_type f <> "") files ->
    let '(ta', td', files') := fold_left statOfChange changes (ta, td, files) in
    ta' = ta + sumZ (map fs_additions files') - sumZ (map fs_additions files)
    /\ td' = td + sumZ (map fs_deletions files') - sumZ (map fs_deletions files)
    /\ List.length files' = (List.length files + List.length changes)%nat
    /\ Forall (fun f => fs_path f <> "" /\ fs_type f <> "") files'.
Proof.
  induction changes as [|c changes IH]; intros ta td files Hf.
  - cbn. repeat split; try lia; assumption.
  - cbn [fold_left]. unfold statOfChange at 2.
    match goal with |- context [fold_left _ changes (?a, ?b, ?fs)] =>
      specialize (IH a b fs) end.
    destruct (fold_left statOfChange changes _) as [[ta' td'] files'].
    destruct IH as (E1 & E2 & E3 & E4).
    { apply Forall_app. split; [assumption|]. repeat constructor; cbn.
      - destruct (ce_path c) as [[|? ?]|]; try discriminate;
          destruct (ce_srcPath c) as [[|? ?]|]; discriminate.
      - destruct (ce_type c) as [[|? ?]|]; try discriminate;
          destruct (ce_nodeType c) as [[|? ?]|]; discriminate. }
    rewrite !map_app in E1, E2. unfold sumZ in *.
    rewrite !fold_right_app in E1, E2. cbn in E1, E2.
    assert (Hsum : forall (l : list Z) x,
               fold_right Z.add x l = fold_right Z.add 0 l + x).
    { intros l x. induction l as [|y l IHl]; cbn; lia. }
    rewrite (Hsum _ (_ + 0)) in E1. rewrite (Hsum _ (_ + 0)) in E2.
    rewrite length_app in E3. cbn [List.length] in *.
    repeat split; try lia; assumption.
Qed.

(** X16.  In the statistics of a pull request the two totals are the sums
    over the files reported, there is one file per change, and no file is
    reported with an empty path or an empty type. *)
Theorem diffStats_totals (values : option (list ChangeEntry)) (size : option Z) :
  let r := diffStats values size in
  ds_totalAdditions r = sumZ (map fs_additions (ds_files r))
  /\ ds_totalDeletions r = sumZ (map fs_deletions (ds_files r))
  /\ List.length (ds_files r)
     = List.length (match values with Some l => l | None => [] end)
  /\ ds_showing r = JS.len (ds_files r)
  /\ Forall (fun f => fs_path f <> "" /\ fs_type f <> "") (ds_files r).
Proof.
  cbv zeta. unfold diffStats.
  pose proof (statOfChange_fold (match values with Some l => l | None => [] end)
                0 0 [] (Forall_nil _)) as H.
  destruct (fold_left statOfChange _ (0, 0, [])) as [[ta td] files].
  destruct H as (E1 & E2 & E3 & E4). cbn in *.
  unfold sumZ in *. repeat split; try assumption; lia.
Qed.

(** ** [getDiffForFiles] *)

Lemma fetchFiles_spec (fetch : string -> FileFetch) (paths : list string) :
  forall diffs errors,
    fetchFiles fetch paths diffs errors
    = match firstFailure fetch paths with
      | Some e => Throws e
      | None => Returns (diffs ++ fileSections fetch paths,
                         errors ++ fileWarnings fetch paths)
      end.
Proof.
  induction paths as [|p paths IH]; intros diffs errors.
  - cbn. now rewrite !app_nil_r.
  - cbn [fetchFiles firstFailure fileSections fileWarnings flat_map].
    destruct (fetch p) as [data| |e]; [| |reflexivity]; rewrite IH;
      destruct (firstFailure fetch paths); try reflexivity;
      cbn [app]; now rewrite <- ?app_assoc.
Qed.

Lemma sections_and_warnings (fetch : string -> FileFetch) (paths : list string) :
  firstFailure fetch paths = None ->
  (List.length (fileSections fetch paths)
   + List.length (fileWarnings fetch paths))%nat = List.length paths.
Proof.
  induction paths as [|p paths IH]; [reflexivity|].
  cbn [firstFailure fileSections fileWarnings flat_map].
  destruct (fetch p); [| |discriminate]; intros H; specialize (IH H);
    unfold fileSections, fileWarnings in IH; cbn [app List.length]; lia.
Qed.

(** X17.  For a list of paths that is not empty, [getDiffForFiles] fails
    with the first error, in the order of the paths, that is not a 404,
    whatever the other files give; without such an error it returns the
    sections of the files found, then a warning block for the files not
    found when there is one, and every path gives a section or a
    warning.  Without a path it fails before any request. *)
Theorem getDiffForFiles_outcome (fetch : string -> FileFetch)
    (params : PullRequestParams) (p : string) (paths : list string) :
  paramsMissing params = false ->
  (forall e,
      firstFailure fetch (p :: paths) = Some e ->
      getDiffForFiles fetch params (Some (p :: paths)) = Throws e)
  /\ (firstFailure fetch (p :: paths) = None ->
      getDiffForFiles fetch params (Some (p :: paths))
      = Returns
          (match fileWarnings fetch (p :: paths) with
           | [] => String.concat twoLineFeeds (fileSections fetch (p :: paths))
           | warnings =>
               (String.concat twoLineFeeds (fileSections fetch (p :: paths))
                ++ twoLineFeeds ++ "[*** WARNINGS ***]"
                ++ String JS.LF
                     (String.concat (String JS.LF EmptyString) warnings))%string
           end)
      /\ (List.length (fileSections fetch (p :: paths))
          + List.length (fileWarnings fetch (p :: paths)))%nat
         = List.length (p :: paths))
  /\ getDiffForFiles fetch params (Some [])
     = Throws (InvalidParams "filePaths array is required and must not be empty")
  /\ getDiffForFiles fetch params None
     = Throws (InvalidParams "filePaths array is required and must not be empty").
Proof.
  intros Hparams. unfold getDiffForFiles. rewrite Hparams.
  rewrite fetchFiles_spec. cbn [app].
  repeat split; try reflexivity.
  - intros e ->. reflexivity.
  - rewrite H.
    destruct (fileWarnings fetch (p :: paths)) eqn:Ew; reflexivity.
  - now apply sections_and_warnings.
Qed.

Lemma getDiffForFiles_outcome_witness :
  let fetch := fun path =>
    if String.eqb path "a.ts" then Fetched "+x"
    else if String.eqb path "b.ts" then NotFound
    else Failed (HttpError 500) in
  let params := mkParams (Some "PRJ") (Some "repo") (Some 7) in
  getDiffForFiles fetch params (Some ["a.ts"; "b.ts"; "c.ts"; "a.ts"])
  = Throws (HttpError 500).
Proof.
  cbv zeta.
  refine (proj1 (getDiffForFiles_outcome _ (mkParams (Some "PRJ") (Some "repo") (Some 7))
                   "a.ts" ["b.ts"; "c.ts"; "a.ts"] eq_refl) _ _).
  reflexivity.
Defined.

(** ** The query of [search] *)

(** X18.  The query sent by [search] is the query given, in quotes for a
    file search when it holds no [ext:] and does not start with a quote,
    followed by the scope; the scope names the project, and the
    repository only when there is a project: a repository without a
    project changes nothing. *)
Theorem searchQuery_scope (query : string) (project repository : option string)
    (type : option SearchType) :
  query <> EmptyString ->
  searchQuery (Some query) project repository type
  = Returns
      ((if searchQuoted query type
        then String quoteChar query ++ String quoteChar EmptyString
        else query)
       ++ searchScope project repository)%string
  /\ searchScope None repository = EmptyString.
Proof.
  intros Hq. split; [|reflexivity].
  unfold searchQuery, searchQuoted, searchScope.
  destruct query as [|c q]; [congruence|]. cbn [truthyStr negb templateStr].
  destruct project as [[|pc p]|], repository as [[|rc r]|];
    cbn [truthyStr andb templateStr];
    destruct type as [[|]|]; try destruct (_ && _);
      rewrite ?append_empty_r, ?append_assoc; reflexivity.
Qed.

Lemma searchQuery_scope_witness :
  searchQuery (Some "README.md") (Some "PRJ") (Some "repo") (Some SearchFile)
  = Returns
      ((if searchQuoted "README.md" (Some SearchFile)
        then String quoteChar "README.md" ++ String quoteChar EmptyString
        else "README.md")
       ++ searchScope (Some "PRJ") (Some "repo"))%string
  /\ searchScope None (Some "repo") = EmptyString.
Proof. apply searchQuery_scope. discriminate. Defined.

(** ** The filter on texts that need no filtering *)

(** X19.  When an option is set, every header line carries a name, every
    file passes the patterns and no cap is exceeded, the filter returns
    the text as it is and counts every file as included. *)
Theorem filterDiff_returns_text_unchanged (d : string) (pre : list string)
    (segs : list (list string)) (opts : DiffFilterOptions) :
  noFiltering opts = false ->
  JS.split d = pre ++ List.concat segs ->
  noFileHeader pre = true ->
  Forall (fun seg => isSegment seg = true /\ segmentPasses opts seg = true)
    segs ->
  (forall m, maxFiles opts = Some m -> m <> 0 -> JS.len segs <= m) ->
  (forall m, maxTotalLines opts = Some m -> m <> 0 ->
             JS.len (List.concat segs) <= m) ->
  filterDiff d opts
  = (d, mkStats (JS.len segs) 0 (JS.len (List.concat segs))).
Proof. apply filterDiff_passthrough. Qed.

Lemma filterDiff_returns_text_unchanged_witness :
  let d := JS.join ("preamble" :: sampleSegment "src/a.ts" 1
                      ++ sampleSegment "src/b.ts" 2) in
  filterDiff d (mkOptions (Some ["src/*"]) (Some ["*.lock"]) (Some 2) (Some 11))
  = (d, mkStats 2 0 11).
Proof.
  cbv zeta.
  apply (filterDiff_returns_text_unchanged _ ["preamble"]
           [sampleSegment "src/a.ts" 1; sampleSegment "src/b.ts" 2]);
    try (vm_compute; reflexivity).
  - repeat (apply Forall_cons; [split; vm_compute; reflexivity|]).
    apply Forall_nil.
  - intros m [= <-] _. vm_compute. discriminate.
  - intros m [= <-] _. vm_compute. discriminate.
Defined.
